(** * gokart.target: targets, archive-packaged models and the chunked
      data-frame serializer

    A shallow embedding of [gokart/target.py] and the properties of its
    persistence layer.  Python values are modelled by inductive types,
    the file system by finite maps, and every function that can raise or
    that writes to storage by a state-and-exception monad. *)

From Stdlib Require Import ZArith Ascii String List Lia.
From stdpp Require Import base tactics option list gmap strings pretty sorting.

Local Open Scope Z_scope.

(** ** Python strings and [os.path] *)

Module Str.

(** [s[:n]] *)
Fixpoint take (n : nat) (s : string) : string :=
  match n, s with
  | S n', String a s' => String a (take n' s')
  | _, _ => ""
  end.

(** [s[n:]] *)
Fixpoint drop (n : nat) (s : string) : string :=
  match n, s with
  | S n', String _ s' => drop n' s'
  | _, _ => s
  end.

(** [s.rfind(c)]: the highest index holding [c], or [-1]. *)
Fixpoint rfind_from (c : ascii) (s : string) (i found : Z) : Z :=
  match s with
  | "" => found
  | String a s' => rfind_from c s' (i + 1) (if Ascii.eqb a c then i else found)
  end.

Definition rfind (c : ascii) (s : string) : Z := rfind_from c s 0 (-1).

(** [s[i:i+1]], the empty string when [i] is out of range. *)
Definition at_index (s : string) (i : Z) : string :=
  take 1 (drop (Z.to_nat i) s).

(** [s.startswith(p)] *)
Definition startswith (s p : string) : bool := String.prefix p s.

(** [s.endswith(p)] *)
Definition endswith (s p : string) : bool :=
  (String.length p <=? String.length s)%nat
  && String.eqb (drop (String.length s - String.length p) s) p.

(** [c in s] for a character. *)
Fixpoint mem (c : ascii) (s : string) : bool :=
  match s with
  | "" => false
  | String a s' => Ascii.eqb a c || mem c s'
  end.

End Str.

Module os_path.

Definition sep : ascii := "/"%char.
Definition extsep : ascii := "."%char.

(** The [while filenameIndex < dotIndex] loop of [genericpath._splitext]:
    [true] when a character other than the extension separator stands
    between the last separator and the last dot. *)
Fixpoint has_name_before_dot (fuel : nat) (p : string) (filenameIndex dotIndex : Z) : bool :=
  match fuel with
  | O => false
  | S fuel' =>
      if filenameIndex <? dotIndex then
        if negb (String.eqb (Str.at_index p filenameIndex) (String extsep ""))
        then true
        else has_name_before_dot fuel' p (filenameIndex + 1) dotIndex
      else false
  end.

(** [os.path.splitext] (posix flavour: separator [/], no alternative
    separator). *)
Definition splitext (p : string) : string * string :=
  let sepIndex := Str.rfind sep p in
  let dotIndex := Str.rfind extsep p in
  if (sepIndex <? dotIndex)
     && has_name_before_dot (String.length p) p (sepIndex + 1) dotIndex
  then (Str.take (Z.to_nat dotIndex) p, Str.drop (Z.to_nat dotIndex) p)
  else (p, "").

(** [os.path.join(a, b)] (posix flavour). *)
Definition join (a b : string) : string :=
  if Str.startswith b (String sep "") then b
  else if String.eqb a "" || Str.endswith a (String sep "") then a +:+ b
  else a +:+ String sep "" +:+ b.

End os_path.

(** An extension as [os.path.splitext] splits it off: nothing, or a dot
    followed by characters that are neither a dot nor a separator. *)
Definition is_extension (ext : string) : Prop :=
  ext = "" ∨ ∃ e, ext = String os_path.extsep e
                  ∧ Str.mem os_path.extsep e = false
                  ∧ Str.mem os_path.sep e = false.

(** ** Python exceptions and effects *)

Module Py.

(** The exceptions that the modelled code and its libraries raise. *)
Inductive Error : Type :=
| ValueError
| IndexError
| ZeroDivisionError
| TypeError
| FileNotFoundError
| FileExistsError
| InvalidIndexError
| UnpicklingError
| ConfigurationError
| UserError (msg : string).

Inductive Result (A : Type) : Type :=
| Ok (a : A)
| Raise (e : Error).
Arguments Ok {A} a.
Arguments Raise {A} e.

Definition is_ok {A} (r : Result A) : bool :=
  match r with Ok _ => true | Raise _ => false end.

(** A computation over a store [S]: it always leaves a store behind,
    also when it raises (whatever was written before the exception
    stays written). *)
Definition M (S A : Type) : Type := S → S * Result A.

Definition ret {S A} (a : A) : M S A := λ s, (s, Ok a).
Definition raise {S A} (e : Error) : M S A := λ s, (s, Raise e).
Definition bind {S A B} (m : M S A) (k : A → M S B) : M S B :=
  λ s, match m s with
       | (s', Ok a) => k a s'
       | (s', Raise e) => (s', Raise e)
       end.
Definition lift {S A} (r : Result A) : M S A := λ s, (s, r).
Definition gets {S A} (f : S → A) : M S A := λ s, (s, Ok (f s)).
Definition modify {S} (f : S → S) : M S unit := λ s, (f s, Ok tt).

(** [for x in l: body(x)] *)
Fixpoint for_each {S A} (l : list A) (body : A → M S unit) : M S unit :=
  match l with
  | [] => ret tt
  | x :: l' => bind (body x) (λ _, for_each l' body)
  end.

(** [[f(x) for x in l]] for an [f] that only reads. *)
Fixpoint comprehension {A B} (f : A → Result B) (l : list A) : Result (list B) :=
  match l with
  | [] => Ok []
  | x :: l' =>
      match f x with
      | Ok y => match comprehension f l' with
                | Ok ys => Ok (y :: ys)
                | Raise e => Raise e
                end
      | Raise e => Raise e
      end
  end.

(** [list(enumerate(l))] *)
Definition enumerate {A} (l : list A) : list (nat * A) := zip (seq 0 (length l)) l.

(** [a // b] on integers. *)
Definition floordiv (a b : Z) : Result Z :=
  if b =? 0 then Raise ZeroDivisionError else Ok (a / b).

(** [l[0]] and [l[-1]] on a sequence. *)
Definition first {A} (l : list A) : Result A :=
  match l with [] => Raise IndexError | x :: _ => Ok x end.
Definition final {A} (l : list A) : Result A :=
  match last l with None => Raise IndexError | Some x => Ok x end.

End Py.

Notation "'do' x <- m ; k" := (Py.bind m (λ x, k))
  (at level 10, x name, m at level 99, k at level 200).
Notation "'do' ' p <- m ; k" := (Py.bind m (λ x, match x with p => k end))
  (at level 10, p pattern, m at level 99, k at level 200).
Notation "m ;; k" := (Py.bind m (λ _, k))
  (at level 100, k at level 200, right associativity).

(** ** numpy and pandas, as far as the serializer uses them *)

Module np.

(** [np.array_split(ary, sections)] for an integer [sections]: the
    first [len % sections] pieces have [len // sections + 1] elements,
    the others [len // sections]; a number of sections that is not
    positive is a [ValueError]. *)
Definition array_split {A} (ary : list A) (sections : Z) : Py.Result (list (list A)) :=
  if sections <=? 0 then Py.Raise Py.ValueError
  else
    let Ntotal := length ary in
    let Nsections := Z.to_nat sections in
    let Neach_section := (Ntotal / Nsections)%nat in
    let extras := (Ntotal mod Nsections)%nat in
    let section_sizes :=
      replicate extras (S Neach_section)
      ++ replicate (Nsections - extras) Neach_section in
    Py.Ok (reshape section_sizes ary).

End np.

Module pd.

(** A cell holds a number or is missing ([NaN]). *)
Definition Cell : Type := option Z.

(** A data frame: column labels, the item size in bytes of the common
    dtype of [df.values], and the rows in order, each with its index
    label. *)
Record DataFrame : Type := mkDataFrame {
  columns : list string;
  itemsize : nat;
  rows : list (Z * list Cell)
}.

Global Instance DataFrame_eq_dec : EqDecision DataFrame.
Proof. solve_decision. Defined.

(** [df.shape[0]] *)
Definition nrows (df : DataFrame) : nat := length (rows df).

(** [df.empty]: some axis has length zero. *)
Definition empty (df : DataFrame) : bool :=
  match rows df, columns df with
  | [], _ | _, [] => true
  | _, _ => false
  end.

(** [df.values.nbytes] *)
Definition values_nbytes (df : DataFrame) : Z :=
  Z.of_nat (nrows df) * Z.of_nat (length (columns df)) * Z.of_nat (itemsize df).

(** [df.iloc[start:stop]] for positions [start], [stop] that are not
    negative. *)
Definition iloc (df : DataFrame) (start stop : nat) : DataFrame :=
  {| columns := columns df;
     itemsize := itemsize df;
     rows := take (stop - start) (drop start (rows df)) |}.

(** Position of a label in an index. *)
Fixpoint get_loc (c : string) (cols : list string) : option nat :=
  match cols with
  | [] => None
  | c' :: cols' => if String.eqb c' c then Some O else S <$> get_loc c cols'
  end.

(** A row of a frame with columns [cols], laid out on [target]; a
    column the frame does not have is missing. *)
Definition reindex (cols target : list string) (r : Z * list Cell) : Z * list Cell :=
  (r.1, (λ c, i ← get_loc c cols; mjoin (r.2 !! i)) <$> target).

(** Union of the column indexes in order of first appearance. *)
Definition union_indexes (objs : list DataFrame) : list string :=
  remove_dups (concat (columns <$> objs)).

(** [pd.concat(objs)] along the rows.  Frames with one and the same
    column index are stacked as they are; otherwise the columns are the
    union of all column indexes, which needs every index to be free of
    duplicates. *)
Definition concat (objs : list DataFrame) : Py.Result DataFrame :=
  match objs with
  | [] => Py.Raise Py.ValueError
  | df :: _ =>
      let wide := foldr Nat.max O (itemsize <$> objs) in
      if forallb (λ o, bool_decide (columns o = columns df)) objs then
        Py.Ok {| columns := columns df;
                 itemsize := wide;
                 rows := List.concat (rows <$> objs) |}
      else if forallb (λ o, bool_decide (NoDup (columns o))) objs then
        let cols := union_indexes objs in
        Py.Ok {| columns := cols;
                 itemsize := wide;
                 rows := List.concat ((λ o, reindex (columns o) cols <$> rows o) <$> objs) |}
      else Py.Raise Py.InvalidIndexError
  end.

End pd.

(** ** [LargeDataFrameProcessor] *)

Module LargeDataFrameProcessor.

(** The artifact directory [dir_path = os.path.dirname(file_path)]:
    its entries by name, each a pickled data frame.  A directory that
    does not exist and an empty one are the same state: [save] creates
    the directory with [os.makedirs(dir_path, exist_ok=True)], which
    leaves an existing directory as it is, and [glob] lists nothing in
    both. *)
Abbreviation Dir := (gmap string pd.DataFrame).

(** [df.to_pickle(os.path.join(dir_path, name))] *)
Definition to_pickle (df : pd.DataFrame) (name : string) : Py.M Dir unit :=
  Py.modify (λ d : Dir, <[name := df]> d).

(** [pd.read_pickle(os.path.join(dir_path, name))] *)
Definition read_pickle (d : Dir) (name : string) : Py.Result pd.DataFrame :=
  match d !! name with
  | Some df => Py.Ok df
  | None => Py.Raise Py.FileNotFoundError
  end.

(** [fnmatch(name, 'data_*.pkl')] *)
Definition is_fragment (name : string) : bool :=
  Str.startswith name "data_" && Str.endswith name ".pkl"
  && (9 <=? String.length name)%nat.

(** [f'data_{i}.pkl'] *)
Definition fragment_name (i : nat) : string := "data_" +:+ pretty i +:+ ".pkl".

Record t : Type := mk { max_byte : Z }.

(** [save(self, df, file_path)], on the directory of [file_path]. *)
Definition save (self : t) (df : pd.DataFrame) : Py.M Dir unit :=
  if pd.empty df then to_pickle df "data_0.pkl"
  else
    do q <- Py.lift (Py.floordiv (pd.values_nbytes df) (max_byte self));
    let split_size := q + 1 in
    do chunks <- Py.lift (np.array_split (seq 0 (pd.nrows df)) split_size);
    Py.for_each (Py.enumerate chunks) (λ '(i, idx),
      do lo <- Py.lift (Py.first idx);
      do hi <- Py.lift (Py.final idx);
      to_pickle (pd.iloc df lo (hi + 1)) (fragment_name i)).

Section Load.

(** The order in which the operating system lists a directory.
    [glob] returns the names "in arbitrary order"; the order is a
    parameter of the model. *)
Variable scandir : Dir → list string.

(** [glob(os.path.join(dir_path, 'data_*.pkl'))] *)
Definition glob (d : Dir) : list string := filter (λ n, is_fragment n = true) (scandir d).

(** [load(file_path)], on the directory of [file_path]. *)
Definition load (d : Dir) : Py.Result pd.DataFrame :=
  match Py.comprehension (read_pickle d) (glob d) with
  | Py.Ok frames => pd.concat frames
  | Py.Raise e => Py.Raise e
  end.

End Load.


(** The section sizes that [array_split] uses. *)
Definition section_sizes (Ntotal Nsections : nat) : list nat :=
  replicate (Ntotal mod Nsections)%nat (S (Ntotal / Nsections)%nat)
  ++ replicate (Nsections - Ntotal mod Nsections)%nat (Ntotal / Nsections)%nat.

(** [split_size], and one for an empty frame. *)
Definition chunk_count (self : t) (df : pd.DataFrame) : nat :=
  if pd.empty df then 1%nat
  else Z.to_nat (pd.values_nbytes df / max_byte self + 1).


(** The directory after the frames are written under the numbers from
    [i] on. *)
Fixpoint write_all (i : nat) (frames : list pd.DataFrame) (d : Dir) : Dir :=
  match frames with
  | [] => d
  | f :: frames' => write_all (S i) frames' (<[fragment_name i := f]> d)
  end.




(** Two listing orders: by name, and by name reversed. *)
Definition scandir_sorted (d : Dir) : list string :=
  merge_sort String.le (map_to_list d).*1.
Definition scandir_reversed (d : Dir) : list string :=
  reverse (scandir_sorted d).

End LargeDataFrameProcessor.

(** ** Values, files and the world the targets act on *)

(** Python values that are dumped and loaded.  A function is a
    module-level function, which pickle serializes by reference, that is
    by its qualified name. *)
Inductive Value : Type :=
| VNone
| VBool (b : bool)
| VInt (n : Z)
| VStr (s : string)
| VFunc (qualname : string).

Global Instance Value_eq_dec : EqDecision Value.
Proof. solve_decision. Defined.

(** Truth value of an object, as [or] tests it. *)
Definition truthy (v : Value) : bool :=
  match v with
  | VNone => false
  | VBool b => b
  | VInt n => negb (n =? 0)
  | VStr s => negb (String.eqb s "")
  | VFunc _ => true
  end.

(** [a or b], with [b] evaluated only when [a] is false. *)
Definition or_else {S} (a : Value) (b : Py.M S Value) : Py.M S Value :=
  if truthy a then Py.ret a else b.

(** What a path can hold: a pickled object, text, or a compressed
    directory with its entries by relative name. *)
#[local] Set Warnings "-register-all".
Inductive File : Type :=
| Pickled (v : Value)
| Text (s : string)
| Archive (entries : gmap string File).
#[local] Set Warnings "register-all".

(** [dict[str, str] | None] and the flattened required task outputs. *)
Definition Labels : Type := option (list (string * string)).
Definition RequiredTaskOutputs : Type := option (list string).

(** One call of the provenance annotator. *)
Record Annotation : Type := mkAnnotation {
  a_path : string;
  a_task_params : Labels;
  a_custom_labels : Labels;
  a_required_task_outputs : RequiredTaskOutputs
}.

(** Local and remote storage: files by path, the directories that were
    created as such, and the annotator calls made so far. *)
Record World : Type := mkWorld {
  files : gmap string File;
  dirs : gset string;
  annotations : list Annotation
}.

Module fs.

(** [pre] removed from the front of [p]. *)
Fixpoint strip_prefix (pre p : string) : option string :=
  match pre with
  | "" => Some p
  | String a pre' =>
      match p with
      | "" => None
      | String b p' => if Ascii.eqb a b then strip_prefix pre' p' else None
      end
  end.

(** The prefix that the paths below directory [d] share. *)
Definition dir_prefix (d : string) : string := os_path.join d "".

(** The name of [p] relative to directory [d], for a [p] below [d]. *)
Definition relative (d p : string) : option string := strip_prefix (dir_prefix d) p.

Definition below (d p : string) : Prop := is_Some (relative d p).

Global Instance below_dec d p : Decision (below d p).
Proof. unfold below. apply _. Defined.

(** The files below [d]. *)
Definition tree (d : string) (w : World) : gmap string File :=
  filter (λ kv, below d kv.1) (files w).

(** [os.path.isdir(d)]: the directory was created, or a file lies
    below it. *)
Definition isdir (d : string) (w : World) : bool :=
  negb (String.eqb d "")
  && (bool_decide (d ∈ dirs w) || bool_decide (tree d w ≠ ∅)).

Definition exists_file (p : string) (w : World) : bool :=
  bool_decide (is_Some (files w !! p)).

(** Writing a file through a target: the content appears at the path
    in one step. *)
Definition write (p : string) (f : File) : Py.M World unit :=
  Py.modify (λ w, {| files := <[p := f]> (files w); dirs := dirs w;
                     annotations := annotations w |}).

Definition read (p : string) : Py.M World File :=
  λ w, match files w !! p with
       | Some f => (w, Py.Ok f)
       | None => (w, Py.Raise Py.FileNotFoundError)
       end.

Definition unlink (p : string) : Py.M World unit :=
  λ w, match files w !! p with
       | Some _ => ({| files := delete p (files w); dirs := dirs w;
                       annotations := annotations w |}, Py.Ok tt)
       | None => (w, Py.Raise Py.FileNotFoundError)
       end.

(** [os.makedirs(d, exist_ok=True)] *)
Definition makedirs_exist_ok (d : string) : Py.M World unit :=
  λ w, if String.eqb d "" then (w, Py.Raise Py.FileNotFoundError)
       else if exists_file d w then (w, Py.Raise Py.FileExistsError)
       else ({| files := files w; dirs := {[d]} ∪ dirs w;
                annotations := annotations w |}, Py.Ok tt).

(** [shutil.rmtree(d)] *)
Definition rmtree (d : string) : Py.M World unit :=
  λ w, if isdir d w
       then ({| files := filter (λ kv, ¬ below d kv.1) (files w);
                dirs := filter (λ x, x ≠ d ∧ ¬ below d x) (dirs w);
                annotations := annotations w |}, Py.Ok tt)
       else (w, Py.Raise Py.FileNotFoundError).

(** The entries of directory [d] by relative name. *)
Definition entries (d : string) (w : World) : gmap string File :=
  map_fold (λ p f acc, match relative d p with
                       | Some n => <[n := f]> acc
                       | None => acc
                       end) ∅ (files w).

(** Entries laid out below [d]; a file already there under the same
    name is overwritten, the others stay. *)
Definition extract (d : string) (es : gmap string File) (w : World) : World :=
  {| files := kmap (String.app (dir_prefix d)) es ∪ files w;
     dirs := if String.eqb d "" then dirs w else {[d]} ∪ dirs w;
     annotations := annotations w |}.

End fs.

(** ** The collaborators of [gokart.target] *)

(** The functions that function values refer to, the policy of the lock
    protocol and the path test of the object storage: what the module
    imports and does not define. *)
Record Env : Type := mkEnv {
  (** the module-level function of that qualified name, called with a
      path *)
  functions : string → string → Py.M World Value;
  (** whether a lock-guarded dump is skipped when the artifact exists
      once the lock is held *)
  lock_skips_existing : bool;
  (** [ObjectStorage.if_object_storage_path] *)
  if_object_storage_path : string → bool
}.

(** Calling a value with a path. *)
Definition call (env : Env) (f : Value) (path : string) : Py.M World Value :=
  match f with
  | VFunc name => functions env name path
  | _ => Py.raise Py.TypeError
  end.

(** [gokart.file_processor.FileProcessor]: the codec between an object
    and the content of a file. *)
Record FileProcessor : Type := mkFileProcessor {
  fp_dump : Value → Py.Result File;
  fp_load : File → Py.Result Value
}.

Definition PickleFileProcessor : FileProcessor :=
  {| fp_dump := λ v, Py.Ok (Pickled v);
     fp_load := λ f, match f with
                     | Pickled v => Py.Ok v
                     | _ => Py.Raise Py.UnpicklingError
                     end |}.

Definition TextFileProcessor : FileProcessor :=
  {| fp_dump := λ v, match v with
                     | VStr s => Py.Ok (Text s)
                     | _ => Py.Raise Py.TypeError
                     end;
     fp_load := λ f, match f with
                     | Text s => Py.Ok (VStr s)
                     | _ => Py.Raise Py.ValueError
                     end |}.

(** Modelled from the spec: [gokart.file_processor.make_file_processor]
    is not among the sources.  Section 4.1: the processor is "inferred
    from the final path's extension via an injectable registry (table
    formats, generic-object format, text, binary); unresolvable extension
    fails with ConfigurationError".  The registry here has the
    generic-object format and text. *)
Definition make_file_processor (file_path : string) : Py.Result FileProcessor :=
  let extension := (os_path.splitext file_path).2 in
  if String.eqb extension ".pkl" then Py.Ok PickleFileProcessor
  else if String.eqb extension ".txt" then Py.Ok TextFileProcessor
  else Py.Raise Py.ConfigurationError.

(** Modelled from the spec: [gokart.conflict_prevention_lock] is not
    among the sources.  Section 3: the lock scope is "an opaque key
    derived deterministically from the final path (and optional run
    identifier)"; section 4.2 leaves to the lock protocol whether a
    guarded dump still runs when the artifact exists. *)
Record TaskLockParams : Type := mkTaskLockParams {
  lock_key : string * option string;
  skip_existing : bool
}.

Definition make_task_lock_params (env : Env) (file_path : string) (unique_id : option string)
  : TaskLockParams :=
  {| lock_key := (file_path, unique_id); skip_existing := lock_skips_existing env |}.

(** Modelled from the spec: the three wrappers of the lock protocol.
    Section 6: "the guarded callable acquires the scope's lock before
    invoking the inner function and releases it afterward regardless of
    outcome"; section 4.2: the dump wrapper is given an existence check
    "so the protocol can decide, after acquiring the lock, whether the
    guarded write still needs to run".  One caller at a time: acquiring
    succeeds and the lock itself leaves no trace in the world. *)
Definition wrap_load_with_lock {S A} (func : Py.M S A) (task_lock_params : TaskLockParams)
  : Py.M S A := func.

Definition wrap_dump_with_lock {S} (func : Py.M S unit) (task_lock_params : TaskLockParams)
    (exist_check : Py.M S bool) : Py.M S unit :=
  if skip_existing task_lock_params then
    do e <- exist_check;
    if e : bool then Py.ret tt else func
  else func.

Definition wrap_remove_with_lock {S} (func : Py.M S unit) (task_lock_params : TaskLockParams)
  : Py.M S unit := func.

(** Modelled from the spec: [GCSObjectMetadataClient.add_task_state_labels]
    is not among the sources.  Section 4.6: the annotator attaches labels
    to the object at [path]; its failure "is reported but never fails the
    dump".  The call is recorded in the world. *)
Definition add_task_state_labels (path : string) (task_params custom_labels : Labels)
    (required_task_outputs : RequiredTaskOutputs) : Py.M World unit :=
  Py.modify (λ w, {| files := files w; dirs := dirs w;
                     annotations := annotations w
                       ++ [mkAnnotation path task_params custom_labels required_task_outputs] |}).

(** ** [TargetOnKart] *)

(** A method runs on the pair of the target object and the world: it
    can assign to the fields of [self] and write to storage. *)
Definition Method (T A : Type) : Type := Py.M (T * World) A.

Definition self {T} : Method T T := Py.gets fst.

Definition set_self {T} (t : T) : Method T unit := Py.modify (λ s, (t, s.2)).

(** A computation on the world alone, run inside a method. *)
Definition on_world {T A} (m : Py.M World A) : Method T A :=
  λ s, let '(w', r) := m s.2 in ((s.1, w'), r).

(** A method of another object [t], which is dropped afterwards. *)
Definition with_object {T A} (t : T) (m : Method T A) : Py.M World A :=
  λ w, let '(s', r) := m (t, w) in (s'.2, r).

(** The abstract methods of [TargetOnKart]. *)
Class TargetOnKart (T : Type) : Type := {
  _exists : Method T bool;
  _get_task_lock_params : Method T TaskLockParams;
  _load : Method T Value;
  _dump : Value → Labels → Labels → RequiredTaskOutputs → Method T unit;
  _remove : Method T unit;
  _path : Method T string
}.

Section TargetOnKart.

Context {T : Type} `{TargetOnKart T}.

Definition exists_ : Method T bool := _exists.

Definition load : Method T Value :=
  do p <- _get_task_lock_params;
  wrap_load_with_lock _load p.

Definition dump (obj : Value) (lock_at_dump : bool) (task_params custom_labels : Labels)
    (required_task_outputs : RequiredTaskOutputs) : Method T unit :=
  if lock_at_dump then
    do p <- _get_task_lock_params;
    wrap_dump_with_lock (_dump obj task_params custom_labels required_task_outputs) p exists_
  else _dump obj task_params custom_labels required_task_outputs.

Definition remove : Method T unit :=
  do e <- exists_;
  if e : bool then
    do p <- _get_task_lock_params;
    wrap_remove_with_lock _remove p
  else Py.ret tt.

Definition path : Method T string := _path.

End TargetOnKart.

(** ** [SingleFileTarget] *)

(** [luigi.target.FileSystemTarget]: a path, on the local file system
    or in the object storage. *)
Record FileSystemTarget : Type := mkFileSystemTarget {
  fs_path : string;
  fs_object_storage : bool
}.

Module SingleFileTarget.

Record t : Type := mk {
  _target : FileSystemTarget;
  _processor : FileProcessor;
  _task_lock_params : TaskLockParams
}.

Definition _exists : Method t bool :=
  do self <- self;
  on_world (Py.gets (fs.exists_file (fs_path (_target self)))).

Definition _get_task_lock_params : Method t TaskLockParams :=
  do self <- self;
  Py.ret (_task_lock_params self).

Definition _path : Method t string :=
  do self <- self;
  Py.ret (fs_path (_target self)).

Definition _load : Method t Value :=
  do self <- self;
  do f <- on_world (fs.read (fs_path (_target self)));
  Py.lift (fp_load (_processor self) f).

Definition _dump (obj : Value) (task_params custom_labels : Labels)
    (required_task_outputs : RequiredTaskOutputs) : Method t unit :=
  do self <- self;
  do f <- Py.lift (fp_dump (_processor self) obj);
  on_world (fs.write (fs_path (_target self)) f);;
  do path <- _path;
  if Str.startswith path "gs://" then
    do path <- _path;
    on_world (add_task_state_labels path task_params custom_labels required_task_outputs)
  else Py.ret tt.

Definition _remove : Method t unit :=
  do self <- self;
  on_world (fs.unlink (fs_path (_target self))).

Global Instance target : TargetOnKart t :=
  Build_TargetOnKart t _exists _get_task_lock_params _load _dump _remove _path.

End SingleFileTarget.

(** ** The factory *)

Definition _make_file_system_target (env : Env) (file_path : string)
    (processor : option FileProcessor) : Py.Result FileSystemTarget :=
  match (match processor with
         | Some p => Py.Ok p
         | None => make_file_processor file_path
         end) with
  | Py.Ok _ =>
      if if_object_storage_path env file_path
      then Py.Ok {| fs_path := file_path; fs_object_storage := true |}
      else Py.Ok {| fs_path := file_path; fs_object_storage := false |}
  | Py.Raise e => Py.Raise e
  end.

Definition _make_file_path (original_path : string) (unique_id : option string) : string :=
  match unique_id with
  | Some unique_id =>
      let '(base, extension) := os_path.splitext original_path in
      base +:+ "_" +:+ unique_id +:+ extension
  | None => original_path
  end.

Definition make_target (env : Env) (file_path : string) (unique_id : option string)
    (processor : option FileProcessor) (task_lock_params : option TaskLockParams)
  : Py.Result SingleFileTarget.t :=
  let _task_lock_params :=
    match task_lock_params with
    | Some p => p
    | None => make_task_lock_params env file_path unique_id
    end in
  let file_path := _make_file_path file_path unique_id in
  match (match processor with
         | Some p => Py.Ok p
         | None => make_file_processor file_path
         end) with
  | Py.Raise e => Py.Raise e
  | Py.Ok processor =>
      match _make_file_system_target env file_path (Some processor) with
      | Py.Raise e => Py.Raise e
      | Py.Ok file_system_target =>
          Py.Ok (SingleFileTarget.mk file_system_target processor _task_lock_params)
      end
  end.

(** ** The zip client *)

(** Modelled from the spec: [gokart.zip_client_util] is not among the
    sources.  Section 4.4: [make_archive] is to "compress the whole
    scratch directory into one archive file at the target path",
    [unpack_archive] to "expand the archive into the scratch directory";
    the other operations "delegate to the archive file's backend
    handle". *)
Module ZipClient.

Record t : Type := mk {
  file_path : string;
  temporary_directory : string
}.

Definition exists_ (self : t) : Py.M World bool :=
  Py.gets (fs.exists_file (file_path self)).

Definition make_archive (self : t) : Py.M World unit :=
  do d <- Py.gets (fs.isdir (temporary_directory self));
  if d : bool then
    do es <- Py.gets (fs.entries (temporary_directory self));
    fs.write (file_path self) (Archive es)
  else Py.raise Py.FileNotFoundError.

Definition unpack_archive (self : t) : Py.M World unit :=
  do f <- fs.read (file_path self);
  match f with
  | Archive es => Py.modify (fs.extract (temporary_directory self) es)
  | _ => Py.raise Py.ValueError
  end.

Definition remove (self : t) : Py.M World unit := fs.unlink (file_path self).

Definition path (self : t) : string := file_path self.

End ZipClient.

Definition make_zip_client (file_path temporary_directory : string) : ZipClient.t :=
  ZipClient.mk file_path temporary_directory.

(** ** [ModelTarget] *)

Module ModelTarget.

Record t : Type := mk {
  _zip_client : ZipClient.t;
  _temporary_directory : string;
  _save_function : Value → string → Py.M World unit;
  _load_function : Value;
  _task_lock_params : TaskLockParams
}.

(** [__init__] *)
Definition init (file_path temporary_directory : string) (load_function : Value)
    (save_function : Value → string → Py.M World unit) (task_lock_params : TaskLockParams) : t :=
  {| _zip_client := make_zip_client file_path temporary_directory;
     _temporary_directory := temporary_directory;
     _save_function := save_function;
     _load_function := load_function;
     _task_lock_params := task_lock_params |}.

Definition set_load_function (self : t) (f : Value) : t :=
  {| _zip_client := _zip_client self;
     _temporary_directory := _temporary_directory self;
     _save_function := _save_function self;
     _load_function := f;
     _task_lock_params := _task_lock_params self |}.

Definition _model_path (self : t) : string :=
  os_path.join (_temporary_directory self) "model.pkl".

Definition _load_function_path (self : t) : string :=
  os_path.join (_temporary_directory self) "load_function.pkl".

Definition _remove_temporary_directory (self : t) : Py.M World unit :=
  fs.rmtree (_temporary_directory self).

Definition _make_temporary_directory (self : t) : Py.M World unit :=
  fs.makedirs_exist_ok (_temporary_directory self).

Section Methods.

Variable env : Env.

Definition _exists : Method t bool :=
  do self <- self;
  on_world (ZipClient.exists_ (_zip_client self)).

Definition _get_task_lock_params : Method t TaskLockParams :=
  do self <- self;
  Py.ret (_task_lock_params self).

Definition _load : Method t Value :=
  do self0 <- self;
  on_world (ZipClient.unpack_archive (_zip_client self0));;
  do f <- or_else (_load_function self0)
            (on_world (do target <- Py.lift (make_target env (_load_function_path self0)
                                               None None None);
                       with_object target load));
  set_self (set_load_function self0 f);;
  do self1 <- self;
  do model <- on_world (call env (_load_function self1) (_model_path self1));
  on_world (_remove_temporary_directory self1);;
  Py.ret model.

Definition _dump (obj : Value) (task_params custom_labels : Labels)
    (required_task_outputs : RequiredTaskOutputs) : Method t unit :=
  do self <- self;
  on_world (_make_temporary_directory self);;
  on_world (_save_function self obj (_model_path self));;
  on_world (do target <- Py.lift (make_target env (_load_function_path self)
                                    None None None);
            with_object target
              (dump (_load_function self) true task_params custom_labels
                 required_task_outputs));;
  on_world (ZipClient.make_archive (_zip_client self));;
  on_world (_remove_temporary_directory self).

Definition _remove : Method t unit :=
  do self <- self;
  on_world (ZipClient.remove (_zip_client self)).

Definition _path : Method t string :=
  do self <- self;
  Py.ret (ZipClient.path (_zip_client self)).

Definition target : TargetOnKart t :=
  Build_TargetOnKart t _exists _get_task_lock_params _load _dump _remove _path.

(** The methods inherited from [TargetOnKart]. *)
Definition exists_ : Method t bool := @exists_ t target.
Definition load : Method t Value := @load t target.
Definition dump : Value → bool → Labels → Labels → RequiredTaskOutputs → Method t unit :=
  @dump t target.
Definition remove : Method t unit := @remove t target.
Definition path : Method t string := @path t target.

End Methods.

End ModelTarget.

(** ** [hashlib.md5] *)

(** The MD5 message digest (RFC 1321) on 32-bit words, each a [Z] kept
    below [2^32]. *)
Module hashlib.

Definition mask32 (x : Z) : Z := Z.land x 0xffffffff.

Definition not32 (x : Z) : Z := Z.lxor x 0xffffffff.

Definition leftrotate (x c : Z) : Z :=
  Z.lor (mask32 (Z.shiftl x c)) (Z.shiftr x (32 - c)).

(** The per-round shift amounts. *)
Definition s : list Z :=
  [7; 12; 17; 22; 7; 12; 17; 22; 7; 12; 17; 22; 7; 12; 17; 22;
   5; 9; 14; 20; 5; 9; 14; 20; 5; 9; 14; 20; 5; 9; 14; 20;
   4; 11; 16; 23; 4; 11; 16; 23; 4; 11; 16; 23; 4; 11; 16; 23;
   6; 10; 15; 21; 6; 10; 15; 21; 6; 10; 15; 21; 6; 10; 15; 21].

(** [floor(2^32 * abs(sin(i + 1)))] *)
Definition K : list Z :=
  [0xd76aa478; 0xe8c7b756; 0x242070db; 0xc1bdceee;
   0xf57c0faf; 0x4787c62a; 0xa8304613; 0xfd469501;
   0x698098d8; 0x8b44f7af; 0xffff5bb1; 0x895cd7be;
   0x6b901122; 0xfd987193; 0xa679438e; 0x49b40821;
   0xf61e2562; 0xc040b340; 0x265e5a51; 0xe9b6c7aa;
   0xd62f105d; 0x02441453; 0xd8a1e681; 0xe7d3fbc8;
   0x21e1cde6; 0xc33707d6; 0xf4d50d87; 0x455a14ed;
   0xa9e3e905; 0xfcefa3f8; 0x676f02d9; 0x8d2a4c8a;
   0xfffa3942; 0x8771f681; 0x6d9d6122; 0xfde5380c;
   0xa4beea44; 0x4bdecfa9; 0xf6bb4b60; 0xbebfbc70;
   0x289b7ec6; 0xeaa127fa; 0xd4ef3085; 0x04881d05;
   0xd9d4d039; 0xe6db99e5; 0x1fa27cf8; 0xc4ac5665;
   0xf4292244; 0x432aff97; 0xab9423a7; 0xfc93a039;
   0x655b59c3; 0x8f0ccc92; 0xffeff47d; 0x85845dd1;
   0x6fa87e4f; 0xfe2ce6e0; 0xa3014314; 0x4e0811a1;
   0xf7537e82; 0xbd3af235; 0x2ad7d2bb; 0xeb86d391].

Definition State : Type := Z * Z * Z * Z.

Definition initial : State := (0x67452301, 0xefcdab89, 0x98badcfe, 0x10325476).

(** The bytes of a string, and the [n] low bytes of a number, least
    significant first. *)
Definition encode (msg : string) : list Z :=
  (λ a, Z.of_N (N_of_ascii a)) <$> list_ascii_of_string msg.

Fixpoint to_bytes_le (n : nat) (x : Z) : list Z :=
  match n with
  | O => []
  | S n' => Z.land x 0xff :: to_bytes_le n' (Z.shiftr x 8)
  end.

Definition from_bytes_le (bs : list Z) : Z :=
  foldr (λ b acc, b + Z.shiftl acc 8) 0 bs.

(** The message with the bit [1], zeros up to 56 bytes modulo 64, and
    its length in bits on eight bytes. *)
Definition pad (msg : list Z) : list Z :=
  let len := Z.of_nat (length msg) in
  msg ++ [0x80] ++ replicate (Z.to_nat ((55 - len) mod 64)) 0
      ++ to_bytes_le 8 (8 * len).

(** One of the 64 operations on a block of sixteen words. *)
Definition step (M : list Z) (st : State) (i : nat) : State :=
  let '(A, B, C, D) := st in
  let i' := Z.of_nat i in
  let '(F, g) :=
    if i' <? 16 then (Z.lor (Z.land B C) (Z.land (not32 B) D), i')
    else if i' <? 32 then (Z.lor (Z.land D B) (Z.land (not32 D) C), (5 * i' + 1) mod 16)
    else if i' <? 48 then (Z.lxor (Z.lxor B C) D, (3 * i' + 5) mod 16)
    else (Z.lxor C (Z.lor B (not32 D)), (7 * i') mod 16) in
  let F := mask32 (F + A + nth i K 0 + nth (Z.to_nat g) M 0) in
  (D, mask32 (B + leftrotate F (nth i s 0)), B, C).

Definition block (st : State) (chunk : list Z) : State :=
  let M := from_bytes_le <$> reshape (replicate 16 4%nat) chunk in
  let '(a0, b0, c0, d0) := st in
  let '(A, B, C, D) := foldl (step M) st (seq 0 64) in
  (mask32 (a0 + A), mask32 (b0 + B), mask32 (c0 + C), mask32 (d0 + D)).

Definition digest_state (msg : list Z) : State :=
  let padded := pad msg in
  foldl block initial (reshape (replicate (length padded / 64) 64%nat) padded).

Definition hex_digits : list ascii :=
  ["0"; "1"; "2"; "3"; "4"; "5"; "6"; "7"; "8"; "9"; "a"; "b"; "c"; "d"; "e"; "f"]%char.

Definition hex_digit (n : Z) : ascii := nth (Z.to_nat n) hex_digits "0"%char.

Definition hex (bs : list Z) : string :=
  foldr (λ b acc, String (hex_digit (Z.shiftr b 4)) (String (hex_digit (Z.land b 0xf)) acc))
    "" bs.

(** [hashlib.md5(msg.encode()).hexdigest()] *)
Definition md5_hexdigest (msg : string) : string :=
  let '(a, b, c, d) := digest_state (encode msg) in
  hex (to_bytes_le 4 a ++ to_bytes_le 4 b ++ to_bytes_le 4 c ++ to_bytes_le 4 d).

End hashlib.

(** ** The factory of archive model targets *)

Definition make_model_target (env : Env) (file_path temporary_directory : string)
    (save_function : Value → string → Py.M World unit) (load_function : Value)
    (unique_id : option string) (task_lock_params : option TaskLockParams) : ModelTarget.t :=
  let _task_lock_params :=
    match task_lock_params with
    | Some p => p
    | None => make_task_lock_params env file_path unique_id
    end in
  let file_path := _make_file_path file_path unique_id in
  let temporary_directory :=
    os_path.join temporary_directory (hashlib.md5_hexdigest file_path) in
  ModelTarget.init file_path temporary_directory load_function save_function
    _task_lock_params.

(** ** What a dump archives *)

(** The entries that [_dump] archives, from those of the scratch
    directory before the dump. *)
Definition archived_entries (env : Env) (temporary_directory : string) (load_function : Value)
    (payload : File) (w : World) : gmap string File :=
  if lock_skips_existing env
     && fs.exists_file (os_path.join temporary_directory "load_function.pkl") w
  then <["model.pkl" := payload]> (fs.entries temporary_directory w)
  else <["load_function.pkl" := Pickled load_function]>
         (<["model.pkl" := payload]> (fs.entries temporary_directory w)).

(** ** Data for the examples *)

Module Examples.

(** A one-column frame of [n] rows of eight bytes each, the row at
    position [i] labelled [i] and holding [10 + i]. *)
Definition column_frame (n : nat) : pd.DataFrame :=
  {| pd.columns := ["a"]; pd.itemsize := 8;
     pd.rows := (λ i : nat, (Z.of_nat i, [Some (10 + Z.of_nat i)])) <$> seq 0 n |}.


(** A save function: a string is written as text, anything else is
    refused. *)
Definition write_text (obj : Value) (path : string) : Py.M World unit :=
  match obj with
  | VStr s => fs.write path (Text s)
  | _ => Py.raise Py.TypeError
  end.

(** Two reconstruction functions: the model is the text of the file,
    as it is or marked. *)
Definition read_text (path : string) : Py.M World Value :=
  do f <- fs.read path;
  match f with
  | Text s => Py.ret (VStr s)
  | _ => Py.raise Py.ValueError
  end.

Definition read_marked (path : string) : Py.M World Value :=
  do v <- read_text path;
  match v with
  | VStr s => Py.ret (VStr ("marked:" +:+ s))
  | _ => Py.raise Py.ValueError
  end.

(** The collaborators of the examples: the two functions above, a
    lock protocol that never skips a dump, and an object storage that
    answers to the schemes [s3://] and [gs://]. *)
Definition env : Env :=
  {| functions := λ name,
       if String.eqb name "read_text" then read_text
       else if String.eqb name "read_marked" then read_marked
       else λ _, Py.raise (Py.UserError "no such function");
     lock_skips_existing := false;
     if_object_storage_path := λ p, Str.startswith p "s3://" || Str.startswith p "gs://" |}.

(** The same with a lock protocol that skips the dump of an artifact
    that exists. *)
Definition env_skipping : Env :=
  {| functions := functions env;
     lock_skips_existing := true;
     if_object_storage_path := if_object_storage_path env |}.

(** Nothing stored yet. *)
Definition nowhere : World := {| files := ∅; dirs := ∅; annotations := [] |}.

(** An archive model target with its reconstruction function, one
    opened without it, and one whose reconstruction function is not
    defined and raises. *)
Definition lock : TaskLockParams := make_task_lock_params env "out/model.zip" None.

Definition model_target : ModelTarget.t :=
  ModelTarget.init "out/model.zip" "tmp/abc" (VFunc "read_text") write_text lock.

Definition reader_target : ModelTarget.t :=
  ModelTarget.init "out/model.zip" "tmp/abc" VNone write_text lock.


(** A scratch directory with a file left by an earlier run. *)
Definition stale_scratch : World :=
  {| files := {[ "tmp/abc/stale.bin" := Text "old" ]}; dirs := ∅; annotations := [] |}.

(** The archive of the model ["weights"] with the reconstruction
    function of the given name. *)
Definition archived (load_function : string) : World :=
  {| files := {[ "out/model.zip" :=
                   Archive (<["load_function.pkl" := Pickled (VFunc load_function)]>
                              (<["model.pkl" := Text "weights"]> ∅)) ]};
     dirs := ∅; annotations := [] |}.

(** A text target, and a world where its file exists. *)
Definition notes_target : SingleFileTarget.t :=
  SingleFileTarget.mk (mkFileSystemTarget "out/notes.txt" false) TextFileProcessor
    (make_task_lock_params env "out/notes.txt" None).

Definition noted : World :=
  {| files := {[ "out/notes.txt" := Text "old" ]}; dirs := ∅; annotations := [] |}.

(** Two targets of the factory for the same archive path, temporary
    directory and run identifier: one with its reconstruction function,
    one without and with a lock of its own. *)
Definition factory_dumper : ModelTarget.t :=
  make_model_target env "out/model.zip" "tmp" write_text (VFunc "read_text") (Some "42") None.

Definition factory_loader : ModelTarget.t :=
  make_model_target env "out/model.zip" "tmp" write_text VNone (Some "42") (Some lock).

End Examples.

(** * Properties *)

(** ** Strings and paths *)

Section StrFacts.

Lemma str_app_cons (c : ascii) (a b : string) : String c a +:+ b = String c (a +:+ b).
Proof. reflexivity. Qed.

Lemma str_app_nil_l (b : string) : "" +:+ b = b.
Proof. reflexivity. Qed.

Lemma str_length_app (a b : string) :
  String.length (a +:+ b) = (String.length a + String.length b)%nat.
Proof.
  induction a as [|c a IH]; [done |].
  rewrite str_app_cons. simpl. by rewrite IH.
Qed.

Lemma str_app_nil_r (a : string) : a +:+ "" = a.
Proof. induction a as [|c a IH]; [done |]. by rewrite str_app_cons, IH. Qed.

Lemma str_app_assoc (a b c : string) : (a +:+ b) +:+ c = a +:+ b +:+ c.
Proof. induction a as [|x a IH]; [done |]. by rewrite !str_app_cons, IH. Qed.

Lemma str_take_drop (n : nat) (s : string) : Str.take n s +:+ Str.drop n s = s.
Proof.
  revert n; induction s as [|c s IH]; intros [|n]; simpl; try done.
  by rewrite str_app_cons, IH.
Qed.

Lemma str_drop_app_ge (n : nat) (a b : string) :
  Str.drop (String.length a + n) (a +:+ b) = Str.drop n b.
Proof. induction a as [|c a IH]; [done |]. by rewrite str_app_cons. Qed.

Lemma str_drop_app_length (a b : string) : Str.drop (String.length a) (a +:+ b) = b.
Proof.
  rewrite <- (Nat.add_0_r (String.length a)), str_drop_app_ge. by destruct b.
Qed.

Lemma str_take_app_ge (n : nat) (a b : string) :
  Str.take (String.length a + n) (a +:+ b) = a +:+ Str.take n b.
Proof.
  induction a as [|c a IH]; [done |].
  rewrite !str_app_cons. simpl. by rewrite IH.
Qed.

Lemma str_drop_drop (n m : nat) (s : string) :
  Str.drop n (Str.drop m s) = Str.drop (m + n) s.
Proof.
  revert s; induction m as [|m IH]; intros s; simpl; [done |].
  destruct s as [|c s]; [by destruct n | apply IH].
Qed.

Lemma str_mem_drop (c : ascii) (n : nat) (s : string) :
  Str.mem c s = false → Str.mem c (Str.drop n s) = false.
Proof.
  revert s; induction n as [|n IH]; intros [|a s]; simpl; try done.
  intros [_ ?]%orb_false_iff. by apply IH.
Qed.

Lemma str_app_inj_r (a b c : string) : a +:+ c = b +:+ c → a = b.
Proof.
  revert b; induction a as [|x a IH]; intros [|y b] Heq; try done.
  - apply (f_equal String.length) in Heq.
    rewrite str_app_nil_l, str_app_cons in Heq. simpl in Heq.
    rewrite str_length_app in Heq. lia.
  - apply (f_equal String.length) in Heq.
    rewrite str_app_nil_l, str_app_cons in Heq. simpl in Heq.
    rewrite str_length_app in Heq. lia.
  - rewrite !str_app_cons in Heq. injection Heq as -> Heq. f_equal. by apply IH.
Qed.



(** What [rfind] returns: nothing found and the default, or the position
    of an occurrence after which there is no other. *)
Lemma rfind_from_spec (c : ascii) (s : string) (i found : Z) :
  (Str.mem c s = false ∧ Str.rfind_from c s i found = found)
  ∨ (∃ k : nat, (k < String.length s)%nat
       ∧ Str.rfind_from c s i found = i + Z.of_nat k
       ∧ Str.take 1 (Str.drop k s) = String c ""
       ∧ Str.mem c (Str.drop (S k) s) = false).
Proof.
  revert i found; induction s as [|a s IH]; intros i found; simpl; [by left |].
  destruct (IH (i + 1) (if Ascii.eqb a c then i else found))
    as [[Hm Hr] | (k & Hk & Hr & Hat & Hm)].
  - destruct (Ascii.eqb a c) eqn:Hac.
    + right. exists O. apply Ascii.eqb_eq in Hac as ->.
      split; [simpl; lia |]. split; [lia |]. split; [by destruct s | by destruct s].
    + left. by rewrite Hm.
  - right. exists (S k). split; [lia |]. split; [lia |]. by split.
Qed.

Lemma rfind_from_app (c : ascii) (a b : string) (i found : Z) :
  Str.rfind_from c (a +:+ b) i found
  = Str.rfind_from c b (i + Z.of_nat (String.length a)) (Str.rfind_from c a i found).
Proof.
  revert i found; induction a as [|x a IH]; intros i found.
  - rewrite str_app_nil_l. simpl. f_equal; lia.
  - rewrite str_app_cons. simpl. rewrite IH. f_equal; lia.
Qed.

Lemma rfind_from_absent (c : ascii) (s : string) (i found : Z) :
  Str.mem c s = false → Str.rfind_from c s i found = found.
Proof.
  revert i found; induction s as [|a s IH]; intros i found; simpl; [done |].
  intros [-> ?]%orb_false_iff. by apply IH.
Qed.

Lemma rfind_from_bounds (c : ascii) (s : string) (i found : Z) :
  Str.rfind_from c s i found = found
  ∨ i ≤ Str.rfind_from c s i found < i + Z.of_nat (String.length s).
Proof.
  destruct (rfind_from_spec c s i found) as [[_ ?] | (k & ? & -> & _)]; [by left | right; lia].
Qed.

End StrFacts.

Lemma splitext_app (p : string) :
  (os_path.splitext p).1 +:+ (os_path.splitext p).2 = p.
Proof.
  unfold os_path.splitext.
  destruct (_ && _); simpl; [apply str_take_drop | apply str_app_nil_r].
Qed.

Lemma splitext_extension (p : string) : is_extension (os_path.splitext p).2.
Proof.
  unfold os_path.splitext.
  destruct (andb _ _) eqn:Hc; simpl; [| by left].
  apply andb_true_iff in Hc as [Hlt%Z.ltb_lt _].
  right.
  destruct (rfind_from_spec os_path.extsep p 0 (-1)) as [[_ Hr] | (k & Hk & Hr & Hat & Hm)];
    unfold Str.rfind in *; rewrite Hr in *.
  { destruct (rfind_from_bounds os_path.sep p 0 (-1)) as [Hs | Hs]; rewrite ?Hs in Hlt; lia. }
  replace (Z.to_nat (0 + Z.of_nat k)) with k by lia.
  destruct (Str.drop k p) as [|x e] eqn:Hd; simpl in Hat; [done |].
  assert (x = os_path.extsep) as -> by (destruct e; congruence).
  assert (Str.drop (S k) p = e) as He.
  { replace (S k) with (k + 1)%nat by lia. rewrite <- str_drop_drop, Hd. by destruct e. }
  exists e. split; [done |]. split; [by rewrite <- He |].
  destruct (rfind_from_spec os_path.sep p 0 (-1)) as [[Hn _] | (j & Hj & Hrs & _ & Hms)].
  - rewrite <- He. by apply str_mem_drop.
  - rewrite Hrs in Hlt.
    rewrite <- He. replace (S k) with (S j + (k - j))%nat by lia.
    rewrite <- str_drop_drop. by apply str_mem_drop.
Qed.

(** ** The factory: final paths *)

Lemma make_file_path_unique_id (original_path unique_id : string) :
  _make_file_path original_path (Some unique_id)
  = (os_path.splitext original_path).1 +:+ "_" +:+ unique_id
    +:+ (os_path.splitext original_path).2.
Proof. unfold _make_file_path. by destruct (os_path.splitext original_path). Qed.

Lemma make_file_path_distinct (original_path unique_id : string) :
  _make_file_path original_path (Some unique_id) ≠ _make_file_path original_path None.
Proof.
  rewrite make_file_path_unique_id. simpl. intros Heq.
  apply (f_equal String.length) in Heq.
  rewrite <- (splitext_app original_path) in Heq at 3.
  rewrite !str_length_app in Heq. simpl in Heq. lia.
Qed.

Lemma make_target_path (env : Env) (file_path : string) (unique_id : option string)
    (processor : option FileProcessor) (lock : option TaskLockParams) (t : SingleFileTarget.t) :
  make_target env file_path unique_id processor lock = Py.Ok t →
  fs_path (SingleFileTarget._target t) = _make_file_path file_path unique_id.
Proof.
  unfold make_target, _make_file_system_target. intros Hmk.
  destruct (match processor with Some p => _ | None => _ end) as [p|e]; [| done].
  destruct (if_object_storage_path env _); by injection Hmk as <-.
Qed.

Lemma make_target_with_processor (env : Env) (file_path : string) (unique_id : option string)
    (processor : FileProcessor) (lock : option TaskLockParams) :
  ∃ t, make_target env file_path unique_id (Some processor) lock = Py.Ok t.
Proof.
  unfold make_target, _make_file_system_target.
  destruct (if_object_storage_path env _); eauto.
Qed.

(** C8: [make_target] with a run identifier puts it, after an underscore,
    between the two parts into which [os.path.splitext] divides the path,
    the second part being the extension; the final path differs from the
    one made without a run identifier, which is the path as given; and two
    calls with the same path and run identifier give the same final
    path. *)
Theorem make_target_path_disambiguation (env : Env) (file_path unique_id : string)
    (processor : option FileProcessor) (lock : option TaskLockParams)
    (t1 t1' t0 : SingleFileTarget.t) :
  make_target env file_path (Some unique_id) processor lock = Py.Ok t1 →
  make_target env file_path (Some unique_id) processor lock = Py.Ok t1' →
  make_target env file_path None processor lock = Py.Ok t0 →
  let base := (os_path.splitext file_path).1 in
  let extension := (os_path.splitext file_path).2 in
  base +:+ extension = file_path
  ∧ is_extension extension
  ∧ fs_path (SingleFileTarget._target t1) = base +:+ "_" +:+ unique_id +:+ extension
  ∧ fs_path (SingleFileTarget._target t0) = file_path
  ∧ fs_path (SingleFileTarget._target t1) ≠ fs_path (SingleFileTarget._target t0)
  ∧ fs_path (SingleFileTarget._target t1') = fs_path (SingleFileTarget._target t1).
Proof.
  intros H1 H1' H0 base extension.
  apply make_target_path in H1, H1', H0.
  rewrite H1, H1', H0.
  split; [apply splitext_app |].
  split; [apply splitext_extension |].
  split; [apply make_file_path_unique_id |].
  split; [done |].
  split; [apply make_file_path_distinct | done].
Qed.

(** ** The chunked serializer *)

Section Chunks.

Import LargeDataFrameProcessor.
Local Open Scope nat_scope.

(** *** Fragment names *)

Global Instance fragment_name_inj : Inj (=) (=) fragment_name.
Proof.
  intros i j Heq. unfold fragment_name in Heq.
  apply (inj (String.app "data_")) in Heq.
  apply str_app_inj_r in Heq. by apply (inj pretty) in Heq.
Qed.


Lemma fragment_name_0 : fragment_name 0 = "data_0.pkl".
Proof. reflexivity. Qed.

(** *** Cutting a list into pieces *)







(** *** [save] *)














(** *** The directory after a save *)




(** *** [pd.concat] *)











(** *** [load] *)


Section Listing.

Variable scandir : Dir → list string.
Hypothesis scandir_lists : ∀ d : Dir, scandir d ≡ₚ (map_to_list d).*1.







End Listing.

End Chunks.

Section ChunkedSerializer.

Import LargeDataFrameProcessor.

Variable scandir : Dir → list string.
Hypothesis scandir_lists : ∀ d : Dir, scandir d ≡ₚ (map_to_list d).*1.





End ChunkedSerializer.

(** ** The chunked serializer on examples *)

Section ChunkedExamples.

Import LargeDataFrameProcessor Examples.

Lemma scandir_sorted_lists (d : Dir) : scandir_sorted d ≡ₚ (map_to_list d).*1.
Proof. apply merge_sort_Permutation. Qed.


(** Five rows of 8 bytes under a ceiling of 16 bytes: three fragments
    of 2, 2 and 1 rows. *)
Example save_five_rows :
  save (mk 16) (column_frame 5) ∅
  = (write_all 0 [pd.iloc (column_frame 5) 0 2; pd.iloc (column_frame 5) 2 4;
                  pd.iloc (column_frame 5) 4 5] ∅, Py.Ok tt).
Proof. vm_compute. reflexivity. Qed.

Example load_five_rows_sorted :
  load scandir_sorted (save (mk 16) (column_frame 5) ∅).1 = Py.Ok (column_frame 5).
Proof. vm_compute. reflexivity. Qed.

Example load_five_rows_reversed :
  pd.rows <$> (match load scandir_reversed (save (mk 16) (column_frame 5) ∅).1 with
               | Py.Ok out => Some out
               | Py.Raise _ => None
               end)
  = Some [(4, [Some 14]); (2, [Some 12]); (3, [Some 13]); (0, [Some 10]); (1, [Some 11])]%Z.
Proof. vm_compute. reflexivity. Qed.



(** C2 at a failing input: two rows of 8 bytes, 16 bytes in all, under
    a ceiling of 5 bytes (16 = 3.2 × 5) make a chunk count of 4;
    [array_split] gives two chunks of one row and two empty ones, and
    [save] raises [IndexError] at the first empty chunk, with two
    fragment files written. *)
Theorem save_more_chunks_than_rows :
  pd.empty (column_frame 2) = false
  ∧ pd.values_nbytes (column_frame 2) = 16%Z
  ∧ chunk_count (mk 5) (column_frame 2) = 4%nat
  ∧ np.array_split (seq 0 2) 4 = Py.Ok [[0%nat]; [1%nat]; []; []]
  ∧ (save (mk 5) (column_frame 2) ∅).2 = Py.Raise Py.IndexError
  ∧ (map_to_list (save (mk 5) (column_frame 2) ∅).1).*1 ≡ₚ ["data_0.pkl"; "data_1.pkl"].
Proof.
  split; [reflexivity |]. split; [reflexivity |]. split; [reflexivity |].
  split; [reflexivity |]. split; [vm_compute; reflexivity |].
  rewrite <- scandir_sorted_lists. vm_compute. reflexivity.
Qed.






End ChunkedExamples.

(** ** The file system *)

Section FsFacts.

Lemma strip_prefix_app (pre n : string) : fs.strip_prefix pre (pre +:+ n) = Some n.
Proof.
  induction pre as [|a pre IH]; [done |].
  rewrite str_app_cons. simpl. by rewrite Ascii.eqb_refl.
Qed.

Lemma strip_prefix_Some (pre p n : string) :
  fs.strip_prefix pre p = Some n ↔ p = pre +:+ n.
Proof.
  split; [| intros ->; apply strip_prefix_app].
  revert p; induction pre as [|a pre IH]; intros p; simpl.
  - by intros [= ->].
  - destruct p as [|b p]; [done |].
    destruct (Ascii.eqb a b) eqn:Hab; [| done].
    apply Ascii.eqb_eq in Hab as ->. intros ->%IH. by rewrite str_app_cons.
Qed.

Lemma below_iff (d p : string) : fs.below d p ↔ ∃ n, p = fs.dir_prefix d +:+ n.
Proof.
  unfold fs.below, fs.relative. split.
  - intros [n Hn]. exists n. by apply strip_prefix_Some.
  - intros [n ->]. rewrite strip_prefix_app. by eexists.
Qed.

Lemma join_dir_prefix (d name : string) :
  Str.startswith name (String os_path.sep "") = false →
  os_path.join d name = fs.dir_prefix d +:+ name.
Proof.
  intros Hrel. unfold fs.dir_prefix, os_path.join.
  rewrite Hrel. change (Str.startswith "" (String os_path.sep "")) with false.
  cbv iota. destruct (_ || _); [by rewrite str_app_nil_r | by rewrite str_app_assoc].
Qed.

Lemma relative_join (d name : string) :
  Str.startswith name (String os_path.sep "") = false →
  fs.relative d (os_path.join d name) = Some name.
Proof.
  intros Hrel. unfold fs.relative. rewrite join_dir_prefix by done.
  apply strip_prefix_app.
Qed.

Lemma dir_prefix_cases (d : string) :
  fs.dir_prefix d = "" ∨ ∃ x, fs.dir_prefix d = x +:+ "/".
Proof.
  unfold fs.dir_prefix, os_path.join.
  change (Str.startswith "" (String os_path.sep "")) with false. cbv iota.
  destruct (String.eqb_spec d "") as [-> | Hne]; simpl; [by left |].
  right. destruct (Str.endswith d (String os_path.sep "")) eqn:He.
  - rewrite str_app_nil_r. unfold Str.endswith in He.
    apply andb_true_iff in He as [_ He%String.eqb_eq].
    pose proof (str_take_drop
                  (String.length d - String.length (String os_path.sep "")) d) as Htd.
    rewrite He in Htd. eexists. symmetry. exact Htd.
  - eexists. by rewrite str_app_nil_r.
Qed.

Lemma dir_prefix_nonempty (d : string) : d ≠ "" → fs.dir_prefix d ≠ "".
Proof.
  intros Hne. unfold fs.dir_prefix, os_path.join.
  change (Str.startswith "" (String os_path.sep "")) with false. cbv iota.
  destruct (String.eqb_spec d ""); [done |]. simpl.
  destruct (Str.endswith d _); intros Heq%(f_equal String.length);
    rewrite ?str_length_app in Heq; simpl in Heq; destruct d; simpl in *; done || lia.
Qed.

(** The entries of a directory are its files by relative name. *)
Lemma lookup_entries (d : string) (w : World) (n : string) :
  fs.entries d w !! n = files w !! (fs.dir_prefix d +:+ n).
Proof.
  unfold fs.entries.
  apply (map_fold_weak_ind (λ acc m, acc !! n = m !! (fs.dir_prefix d +:+ n))).
  { by rewrite !lookup_empty. }
  intros p f m acc Hp IH.
  destruct (fs.relative d p) as [n'|] eqn:Hrel.
  - apply strip_prefix_Some in Hrel as ->.
    destruct (decide (n' = n)) as [-> | Hne].
    + by rewrite !lookup_insert_eq.
    + rewrite !lookup_insert_ne; [done | | done].
      intros Heq%(inj (String.app _)). done.
  - rewrite lookup_insert_ne; [done |].
    intros ->. unfold fs.relative in Hrel. by rewrite strip_prefix_app in Hrel.
Qed.

Lemma lookup_tree (d : string) (w : World) (n : string) :
  fs.tree d w !! (fs.dir_prefix d +:+ n) = files w !! (fs.dir_prefix d +:+ n).
Proof.
  unfold fs.tree. destruct (files w !! _) as [f|] eqn:Hf.
  - apply map_lookup_filter_Some. split; [done |]. simpl. apply below_iff. eauto.
  - apply map_lookup_filter_None. by left.
Qed.

Lemma tree_empty (d : string) (w : World) :
  fs.tree d w = ∅ ↔ ∀ n, files w !! (fs.dir_prefix d +:+ n) = None.
Proof.
  split.
  - intros He n. by rewrite <- lookup_tree, He, lookup_empty.
  - intros Hn. apply map_eq; intros p. rewrite lookup_empty.
    unfold fs.tree. apply map_lookup_filter_None.
    destruct (files w !! p) as [f|] eqn:Hf; [right | by left].
    intros f' [= <-]. simpl. intros [n ->]%below_iff. by rewrite Hn in Hf.
Qed.


(** After [rmtree] the directory is gone. *)
Lemma rmtree_ok (d : string) (w w' : World) :
  fs.rmtree d w = (w', Py.Ok tt) → fs.isdir d w' = false.
Proof.
  unfold fs.rmtree. destruct (fs.isdir d w); [| done]. intros [= <-].
  unfold fs.isdir. simpl. apply andb_false_iff. right.
  apply orb_false_iff. split.
  - apply bool_decide_eq_false. rewrite elem_of_filter. by intros [[? _] _].
  - apply bool_decide_eq_false. intros Hne. apply Hne.
    apply map_eq; intros p. rewrite lookup_empty.
    unfold fs.tree. simpl. apply map_lookup_filter_None. right.
    intros f Hf%map_lookup_filter_Some. simpl in *. tauto.
Qed.

(** What [rmtree] leaves of the files: those not below the directory. *)
Lemma rmtree_lookup (d : string) (w w' : World) (p : string) :
  fs.rmtree d w = (w', Py.Ok tt) → ¬ fs.below d p → files w' !! p = files w !! p.
Proof.
  unfold fs.rmtree. destruct (fs.isdir d w); [| done]. intros [= <-] Hp. simpl.
  destruct (files w !! p) as [f|] eqn:Hf.
  - by apply map_lookup_filter_Some.
  - apply map_lookup_filter_None. by left.
Qed.

Lemma isdir_created (d : string) (w : World) :
  d ≠ "" → d ∈ dirs w → fs.isdir d w = true.
Proof.
  intros Hne Hin. unfold fs.isdir.
  destruct (String.eqb_spec d ""); [done |]. simpl.
  by rewrite bool_decide_eq_true_2.
Qed.

Lemma isdir_file_below (d n : string) (w : World) :
  d ≠ "" → is_Some (files w !! (fs.dir_prefix d +:+ n)) → fs.isdir d w = true.
Proof.
  intros Hne [f Hf]. unfold fs.isdir.
  destruct (String.eqb_spec d ""); [done |]. simpl.
  apply orb_true_iff. right. apply bool_decide_eq_true.
  intros He. rewrite tree_empty in He. by rewrite He in Hf.
Qed.

End FsFacts.

(** ** The nested target of the archive model target *)

Section NestedTarget.

Lemma rfind_sep_dir_prefix (d : string) :
  Str.rfind os_path.sep (fs.dir_prefix d) + 1 = Z.of_nat (String.length (fs.dir_prefix d)).
Proof.
  destruct (dir_prefix_cases d) as [-> | [x ->]]; [done |].
  unfold Str.rfind. rewrite rfind_from_app, str_length_app. simpl. lia.
Qed.

Lemma splitext_load_function (pre : string) :
  Str.rfind os_path.sep pre + 1 = Z.of_nat (String.length pre) →
  os_path.splitext (pre +:+ "load_function.pkl") = (pre +:+ "load_function", ".pkl").
Proof.
  intros Hsep. unfold os_path.splitext, Str.rfind.
  rewrite !rfind_from_app.
  rewrite (rfind_from_absent os_path.sep "load_function.pkl") by done.
  fold (Str.rfind os_path.sep pre).
  assert (Str.rfind_from os_path.extsep "load_function.pkl"
            (0 + Z.of_nat (String.length pre)) (Str.rfind_from os_path.extsep pre 0 (-1))
          = Z.of_nat (String.length pre + 13)) as ->.
  { simpl. lia. }
  destruct (Z.ltb_spec (Str.rfind os_path.sep pre) (Z.of_nat (String.length pre + 13)));
    [| lia].
  rewrite str_length_app. rewrite Nat.add_comm. simpl String.length.
  change (17 + String.length pre)%nat with (S (16 + String.length pre)).
  cbn [os_path.has_name_before_dot].
  destruct (Z.ltb_spec (Str.rfind os_path.sep pre + 1) (Z.of_nat (String.length pre + 13)));
    [| lia].
  rewrite Hsep. unfold Str.at_index. rewrite Nat2Z.id, str_drop_app_length. simpl.
  rewrite Nat2Z.id, str_take_app_ge, str_drop_app_ge. done.
Qed.

Lemma make_file_processor_load_function (d : string) :
  make_file_processor (os_path.join d "load_function.pkl") = Py.Ok PickleFileProcessor.
Proof.
  unfold make_file_processor. rewrite join_dir_prefix by done.
  by rewrite splitext_load_function by apply rfind_sep_dir_prefix.
Qed.

Lemma make_target_load_function (env : Env) (d : string) :
  make_target env (os_path.join d "load_function.pkl") None None None
  = Py.Ok (SingleFileTarget.mk
             {| fs_path := os_path.join d "load_function.pkl";
                fs_object_storage :=
                  if_object_storage_path env (os_path.join d "load_function.pkl") |}
             PickleFileProcessor
             (make_task_lock_params env (os_path.join d "load_function.pkl") None)).
Proof.
  unfold make_target, _make_file_system_target, _make_file_path.
  rewrite make_file_processor_load_function.
  by destruct (if_object_storage_path env _).
Qed.

End NestedTarget.

(** ** [SingleFileTarget] *)

Section SingleFileTargetFacts.

Lemma single_file_dump (t : SingleFileTarget.t) (obj : Value)
    (task_params custom_labels : Labels) (required_task_outputs : RequiredTaskOutputs)
    (w : World) :
  SingleFileTarget._dump obj task_params custom_labels required_task_outputs (t, w)
  = match fp_dump (SingleFileTarget._processor t) obj with
    | Py.Ok f =>
        ((t, {| files := <[fs_path (SingleFileTarget._target t) := f]> (files w);
                dirs := dirs w;
                annotations :=
                  if Str.startswith (fs_path (SingleFileTarget._target t)) "gs://"
                  then annotations w
                       ++ [mkAnnotation (fs_path (SingleFileTarget._target t)) task_params
                             custom_labels required_task_outputs]
                  else annotations w |}), Py.Ok tt)
    | Py.Raise e => ((t, w), Py.Raise e)
    end.
Proof.
  unfold SingleFileTarget._dump, SingleFileTarget._path, self, on_world, Py.bind, Py.gets,
    Py.lift, Py.ret, fs.write, add_task_state_labels, Py.modify. simpl.
  destruct (fp_dump _ obj) as [f|e]; [| done]. simpl.
  by destruct (Str.startswith _ _).
Qed.

Lemma single_file_exists (t : SingleFileTarget.t) (w : World) :
  exists_ (t, w) = ((t, w), Py.Ok (fs.exists_file (fs_path (SingleFileTarget._target t)) w)).
Proof. reflexivity. Qed.

Lemma single_file_load (t : SingleFileTarget.t) (w : World) :
  load (t, w)
  = ((t, w), match files w !! fs_path (SingleFileTarget._target t) with
             | Some f => fp_load (SingleFileTarget._processor t) f
             | None => Py.Raise Py.FileNotFoundError
             end).
Proof.
  unfold load, wrap_load_with_lock. simpl.
  unfold SingleFileTarget._get_task_lock_params, SingleFileTarget._load, self, on_world,
    Py.bind, Py.gets, Py.lift, Py.ret, fs.read. simpl.
  destruct (files w !! _) as [f|]; [| done]. by destruct (fp_load _ f).
Qed.

Lemma single_file_dump_locked (t : SingleFileTarget.t) (obj : Value) (lock_at_dump : bool)
    (task_params custom_labels : Labels) (required_task_outputs : RequiredTaskOutputs)
    (w : World) :
  dump obj lock_at_dump task_params custom_labels required_task_outputs (t, w)
  = if lock_at_dump && skip_existing (SingleFileTarget._task_lock_params t)
       && fs.exists_file (fs_path (SingleFileTarget._target t)) w
    then ((t, w), Py.Ok tt)
    else SingleFileTarget._dump obj task_params custom_labels required_task_outputs (t, w).
Proof.
  unfold dump, wrap_dump_with_lock. destruct lock_at_dump; [| done]. simpl.
  unfold SingleFileTarget._get_task_lock_params, self, Py.bind, Py.gets, Py.ret. simpl.
  destruct (skip_existing _); [| done]. simpl.
  unfold SingleFileTarget._exists, self, on_world, Py.bind, Py.gets. simpl.
  by destruct (fs.exists_file _ w).
Qed.

End SingleFileTargetFacts.

(** C6, amended: a dump through a single-file target calls the
    provenance annotator exactly when the write ran (the lock protocol did
    not skip it), the processor wrote the object, and the path of the
    target starts with [gs://]; the call is made once, with the path and
    the supplied parameters, labels and required outputs.  For every other
    path, on the local file system or in an object storage of another
    scheme, the annotator is not called. *)
Theorem dump_annotates_gs_paths (t : SingleFileTarget.t) (obj : Value) (lock_at_dump : bool)
    (task_params custom_labels : Labels) (required_task_outputs : RequiredTaskOutputs)
    (w : World) :
  let path := fs_path (SingleFileTarget._target t) in
  let skipped :=
    lock_at_dump && skip_existing (SingleFileTarget._task_lock_params t)
    && fs.exists_file path w in
  let written := negb skipped && Py.is_ok (fp_dump (SingleFileTarget._processor t) obj) in
  let '((t', w'), r) :=
    dump obj lock_at_dump task_params custom_labels required_task_outputs (t, w) in
  t' = t
  ∧ Py.is_ok r = skipped || written
  ∧ files w' = (if written
                then match fp_dump (SingleFileTarget._processor t) obj with
                     | Py.Ok f => <[path := f]> (files w)
                     | Py.Raise _ => files w
                     end
                else files w)
  ∧ annotations w'
    = annotations w
      ++ (if written && Str.startswith path "gs://"
          then [mkAnnotation path task_params custom_labels required_task_outputs]
          else []).
Proof.
  intros path skipped written. subst path skipped written.
  rewrite single_file_dump_locked, single_file_dump.
  destruct (_ && _ && _); simpl.
  { by rewrite app_nil_r. }
  destruct (fp_dump _ obj) as [f|e]; simpl; [| by rewrite app_nil_r].
  destruct (Str.startswith _ _); simpl; [done | by rewrite app_nil_r].
Qed.

(** C6 as stated fails: [make_target] routes a path of scheme [s3://]
    to the object storage, the dump through that target writes the object,
    and the annotator is not called. *)
Lemma dump_remote_not_annotated_counterexample :
  ∃ t : SingleFileTarget.t,
    make_target Examples.env "s3://bucket/out.pkl" None None None = Py.Ok t
    ∧ fs_object_storage (SingleFileTarget._target t) = true
    ∧ let '((_, w'), r) :=
        dump (VStr "x") true (Some [("a", "1")]) (Some [("b", "2")]) (Some ["up"])
          (t, Examples.nowhere) in
      r = Py.Ok tt
      ∧ files w' !! "s3://bucket/out.pkl" = Some (Pickled (VStr "x"))
      ∧ annotations w' = [].
Proof.
  eexists. split; [vm_compute; reflexivity |]. split; [reflexivity |].
  vm_compute. done.
Qed.

(** The same dump to a path of scheme [gs://] is annotated. *)
Example dump_gs_annotated :
  ∃ t : SingleFileTarget.t,
    make_target Examples.env "gs://bucket/out.pkl" None None None = Py.Ok t
    ∧ annotations
        (dump (VStr "x") true (Some [("a", "1")]) (Some [("b", "2")]) (Some ["up"])
           (t, Examples.nowhere)).1.2
      = [mkAnnotation "gs://bucket/out.pkl" (Some [("a", "1")]) (Some [("b", "2")])
           (Some ["up"])].
Proof. eexists. split; [vm_compute; reflexivity |]. vm_compute. reflexivity. Qed.

(** ** [ModelTarget] *)

Section ModelTargetFacts.

Variable env : Env.

(** The dump of the reconstruction function through the nested
    target, which never raises: the pickled function is written to
    [load_function.pkl] unless the lock protocol skips the dump of an
    artifact that exists. *)
Lemma nested_dump (d : string) (f : Value) (task_params custom_labels : Labels)
    (required_task_outputs : RequiredTaskOutputs) (w : World) :
  ∃ w', (do target <- Py.lift (make_target env (os_path.join d "load_function.pkl")
                                 None None None);
         with_object target
           (dump f true task_params custom_labels required_task_outputs)) w
        = (w', Py.Ok tt)
        ∧ dirs w' = dirs w
        ∧ files w'
          = if lock_skips_existing env
               && fs.exists_file (os_path.join d "load_function.pkl") w
            then files w
            else <[os_path.join d "load_function.pkl" := Pickled f]> (files w).
Proof.
  unfold Py.bind at 1. unfold Py.lift at 1. rewrite make_target_load_function.
  unfold with_object. rewrite single_file_dump_locked, single_file_dump. simpl.
  destruct (lock_skips_existing env && _); simpl; eauto.
Qed.

(** The load of the reconstruction function through the nested
    target. *)
Lemma nested_load (d : string) (w : World) :
  (do target <- Py.lift (make_target env (os_path.join d "load_function.pkl")
                           None None None);
   with_object target load) w
  = (w, match files w !! os_path.join d "load_function.pkl" with
        | Some f => fp_load PickleFileProcessor f
        | None => Py.Raise Py.FileNotFoundError
        end).
Proof.
  unfold Py.bind at 1. unfold Py.lift at 1. rewrite make_target_load_function.
  unfold with_object. by rewrite single_file_load.
Qed.

(** [_dump] step by step. *)
Lemma model_dump_steps (t : ModelTarget.t) (obj : Value) (task_params custom_labels : Labels)
    (required_task_outputs : RequiredTaskOutputs) (w : World) :
  ModelTarget._dump env obj task_params custom_labels required_task_outputs (t, w)
  = match fs.makedirs_exist_ok (ModelTarget._temporary_directory t) w with
    | (w0, Py.Raise e) => ((t, w0), Py.Raise e)
    | (w0, Py.Ok _) =>
      match ModelTarget._save_function t obj (ModelTarget._model_path t) w0 with
      | (w1, Py.Raise e) => ((t, w1), Py.Raise e)
      | (w1, Py.Ok _) =>
        match (do target <- Py.lift (make_target env (ModelTarget._load_function_path t)
                                       None None None);
               with_object target
                 (dump (ModelTarget._load_function t) true task_params custom_labels
                    required_task_outputs)) w1 with
        | (w2, Py.Raise e) => ((t, w2), Py.Raise e)
        | (w2, Py.Ok _) =>
          match ZipClient.make_archive (ModelTarget._zip_client t) w2 with
          | (w3, Py.Raise e) => ((t, w3), Py.Raise e)
          | (w3, Py.Ok _) =>
            match fs.rmtree (ModelTarget._temporary_directory t) w3 with
            | (w4, r) => ((t, w4), r)
            end
          end
        end
      end
    end.
Proof.
  unfold ModelTarget._dump, ModelTarget._make_temporary_directory,
    ModelTarget._remove_temporary_directory.
  unfold Py.bind at 1. unfold self at 1. unfold Py.gets at 1. cbn [fst snd].
  unfold Py.bind at 1. unfold on_world at 1. cbn [fst snd].
  destruct (fs.makedirs_exist_ok _ w) as [w0 [[]|e]]; [| done].
  unfold Py.bind at 1. unfold on_world at 1. cbn [fst snd].
  destruct (ModelTarget._save_function t obj _ w0) as [w1 [[]|e]]; [| done].
  unfold Py.bind at 1. unfold on_world at 1. cbn [fst snd].
  destruct (Py.bind _ _ w1) as [w2 [[]|e]]; [| done].
  unfold Py.bind at 1. unfold on_world at 1. cbn [fst snd].
  destruct (ZipClient.make_archive _ w2) as [w3 [[]|e]]; [| done].
  unfold on_world. cbn [fst snd].
  by destruct (fs.rmtree _ w3) as [w4 r].
Qed.

(** [_load] step by step. *)
Lemma model_load_steps (t : ModelTarget.t) (w : World) :
  ModelTarget._load env (t, w)
  = match ZipClient.unpack_archive (ModelTarget._zip_client t) w with
    | (w1, Py.Raise e) => ((t, w1), Py.Raise e)
    | (w1, Py.Ok _) =>
      match (if truthy (ModelTarget._load_function t)
             then Py.Ok (ModelTarget._load_function t)
             else match files w1 !! ModelTarget._load_function_path t with
                  | Some f => fp_load PickleFileProcessor f
                  | None => Py.Raise Py.FileNotFoundError
                  end) with
      | Py.Raise e => ((t, w1), Py.Raise e)
      | Py.Ok f =>
        match call env f (ModelTarget._model_path t) w1 with
        | (w3, Py.Raise e) => ((ModelTarget.set_load_function t f, w3), Py.Raise e)
        | (w3, Py.Ok model) =>
          match fs.rmtree (ModelTarget._temporary_directory t) w3 with
          | (w4, Py.Ok _) => ((ModelTarget.set_load_function t f, w4), Py.Ok model)
          | (w4, Py.Raise e) => ((ModelTarget.set_load_function t f, w4), Py.Raise e)
          end
        end
      end
    end.
Proof.
  unfold ModelTarget._load, ModelTarget._remove_temporary_directory.
  unfold Py.bind at 1. unfold self at 1. unfold Py.gets at 1. cbn [fst snd].
  unfold Py.bind at 1. unfold on_world at 1. cbn [fst snd].
  destruct (ZipClient.unpack_archive _ w) as [w1 [[]|e]]; [| done].
  unfold Py.bind at 1. unfold or_else.
  assert (∀ s : ModelTarget.t * World,
            on_world (do target <- Py.lift (make_target env (ModelTarget._load_function_path t)
                                             None None None);
                      with_object target load) s
            = (s, match files s.2 !! ModelTarget._load_function_path t with
                  | Some f => fp_load PickleFileProcessor f
                  | None => Py.Raise Py.FileNotFoundError
                  end)) as Hnested.
  { intros [t0 w0]. unfold on_world. cbn [fst snd].
    unfold ModelTarget._load_function_path. by rewrite nested_load. }
  destruct (truthy (ModelTarget._load_function t)).
  - unfold Py.ret at 1.
    unfold Py.bind at 1. unfold set_self at 1. unfold Py.modify at 1. cbn [fst snd].
    unfold Py.bind at 1. unfold self at 1. unfold Py.gets at 1. cbn [fst snd].
    unfold Py.bind at 1. unfold on_world at 1. cbn [fst snd].
    change (ModelTarget._model_path (ModelTarget.set_load_function t _))
      with (ModelTarget._model_path t).
    cbn [ModelTarget._load_function ModelTarget.set_load_function].
    destruct (call env _ _ w1) as [w3 [model|e]]; [| done].
    unfold Py.bind at 1. unfold on_world at 1. cbn [fst snd].
    cbn [ModelTarget._temporary_directory ModelTarget.set_load_function].
    by destruct (fs.rmtree _ w3) as [w4 [[]|e]].
  - rewrite Hnested. cbn [fst snd].
    destruct (match files w1 !! _ with Some _ => _ | None => _ end) as [f|e]; [| done].
    unfold Py.bind at 1. unfold set_self at 1. unfold Py.modify at 1. cbn [fst snd].
    unfold Py.bind at 1. unfold self at 1. unfold Py.gets at 1. cbn [fst snd].
    unfold Py.bind at 1. unfold on_world at 1. cbn [fst snd].
    change (ModelTarget._model_path (ModelTarget.set_load_function t f))
      with (ModelTarget._model_path t).
    cbn [ModelTarget._load_function ModelTarget.set_load_function].
    destruct (call env f _ w1) as [w3 [model|e]]; [| done].
    unfold Py.bind at 1. unfold on_world at 1. cbn [fst snd].
    cbn [ModelTarget._temporary_directory ModelTarget.set_load_function].
    by destruct (fs.rmtree _ w3) as [w4 [[]|e]].
Qed.

Lemma set_load_function_same (t : ModelTarget.t) :
  ModelTarget.set_load_function t (ModelTarget._load_function t) = t.
Proof. by destruct t. Qed.

Lemma model_load_public (t : ModelTarget.t) (w : World) :
  ModelTarget.load env (t, w) = ModelTarget._load env (t, w).
Proof. reflexivity. Qed.

Lemma model_dump_public_unlocked (t : ModelTarget.t) (obj : Value)
    (task_params custom_labels : Labels) (required_task_outputs : RequiredTaskOutputs)
    (w : World) :
  ModelTarget.dump env obj false task_params custom_labels required_task_outputs (t, w)
  = ModelTarget._dump env obj task_params custom_labels required_task_outputs (t, w).
Proof. reflexivity. Qed.

End ModelTargetFacts.


(** C5, amended: a single-file target is the same object after each of
    its operations.  [_load] of an archive model target leaves every field
    but [_load_function] as it was; with a reconstruction function given
    at construction (a true value) the target is unchanged and the load is
    the unpacking, the call of that function and the removal of the scratch
    directory, without a read of the persisted function; without one, a
    load that returns has stored in the field the function unpickled from
    [load_function.pkl] in the scratch directory, and the target is no
    longer what it was. *)
Theorem load_keeps_all_but_load_function (env : Env) :
  (∀ (s : SingleFileTarget.t) (w : World) (obj : Value) (lock_at_dump : bool)
     (task_params custom_labels : Labels) (required_task_outputs : RequiredTaskOutputs),
      (exists_ (s, w)).1.1 = s
      ∧ (load (s, w)).1.1 = s
      ∧ (dump obj lock_at_dump task_params custom_labels required_task_outputs (s, w)).1.1 = s
      ∧ (remove (s, w)).1.1 = s
      ∧ (path (s, w)).1.1 = s)
  ∧ (∀ (t : ModelTarget.t) (w : World),
      let t' := (ModelTarget._load env (t, w)).1.1 in
      let r := (ModelTarget._load env (t, w)).2 in
      t' = ModelTarget.set_load_function t (ModelTarget._load_function t')
      ∧ (truthy (ModelTarget._load_function t) = true →
         t' = t
         ∧ ModelTarget._load env (t, w)
           = on_world
               (ZipClient.unpack_archive (ModelTarget._zip_client t);;
                do model <- call env (ModelTarget._load_function t)
                              (ModelTarget._model_path t);
                ModelTarget._remove_temporary_directory t;;
                Py.ret model) (t, w))
      ∧ (truthy (ModelTarget._load_function t) = false →
         Py.is_ok r = true →
         truthy (ModelTarget._load_function t') = true
         ∧ t' ≠ t
         ∧ ∃ es, files w !! ZipClient.file_path (ModelTarget._zip_client t)
                 = Some (Archive es)
                 ∧ files (fs.extract
                            (ZipClient.temporary_directory (ModelTarget._zip_client t)) es w)
                     !! ModelTarget._load_function_path t
                   = Some (Pickled (ModelTarget._load_function t')))).
Proof.
  split.
  - intros s w obj lock_at_dump task_params custom_labels required_task_outputs.
    split; [done |]. split; [by rewrite single_file_load |].
    split.
    { rewrite single_file_dump_locked, single_file_dump.
      destruct (_ && _ && _); [done |]. by destruct (fp_dump _ obj). }
    split; [| done].
    unfold remove. unfold Py.bind at 1. rewrite single_file_exists.
    destruct (fs.exists_file _ w); [| done].
    unfold wrap_remove_with_lock. simpl.
    unfold SingleFileTarget._get_task_lock_params, SingleFileTarget._remove, self, on_world,
      Py.bind, Py.gets, Py.ret, fs.unlink. simpl.
    by destruct (files w !! _).
  - intros t w t' r. subst t' r.
    split; [| split].
    + rewrite model_load_steps.
      destruct (ZipClient.unpack_archive _ w) as [w1 [[]|e]];
        [| symmetry; apply set_load_function_same].
      destruct (if truthy _ then _ else _) as [f|e];
        [| symmetry; apply set_load_function_same].
      destruct (call env f _ w1) as [w3 [m|e]]; [| done].
      by destruct (fs.rmtree _ w3) as [w4 [[]|e]].
    + intros Htrue. rewrite model_load_steps, Htrue.
      unfold on_world, Py.bind, Py.ret, ModelTarget._remove_temporary_directory.
      cbn [fst snd].
      destruct (ZipClient.unpack_archive _ w) as [w1 [[]|e]]; [| done].
      destruct (call env _ _ w1) as [w3 [m|e]];
        [| by rewrite set_load_function_same].
      destruct (fs.rmtree _ w3) as [w4 [[]|e]]; by rewrite set_load_function_same.
    + intros Hfalse Hok.
      pose proof (model_load_steps env t w) as Hsteps. rewrite Hfalse in Hsteps.
      destruct (ModelTarget._load env (t, w)) as [[t' w'] r]. cbn [fst snd] in *.
      unfold ZipClient.unpack_archive, fs.read in Hsteps. unfold Py.bind at 1 in Hsteps.
      destruct (files w !! _) as [file|] eqn:Hfile;
        [| injection Hsteps as -> -> ->; discriminate Hok].
      destruct file as [v|s|es];
        [injection Hsteps as -> -> ->; discriminate Hok
        |injection Hsteps as -> -> ->; discriminate Hok |].
      unfold Py.modify in Hsteps.
      set (w1 := fs.extract _ es w) in *.
      destruct (files w1 !! ModelTarget._load_function_path t) as [lf|] eqn:Hlf;
        [| injection Hsteps as -> -> ->; discriminate Hok].
      destruct lf as [f|s|es'];
        [|injection Hsteps as -> -> ->; discriminate Hok
         |injection Hsteps as -> -> ->; discriminate Hok].
      cbn [fp_load PickleFileProcessor] in Hsteps.
      destruct (call env f _ w1) as [w3 [m|e]] eqn:Hcall;
        [| injection Hsteps as -> -> ->; discriminate Hok].
      assert (truthy f = true) as Hf.
      { destruct f; try done; unfold call, Py.raise in Hcall; by injection Hcall. }
      destruct (fs.rmtree _ w3) as [w4 [[]|e]];
        injection Hsteps as -> -> ->; [| discriminate Hok].
      cbn [ModelTarget._load_function ModelTarget.set_load_function].
      split; [done |]. split; [| by exists es].
      intros Heq. apply (f_equal ModelTarget._load_function) in Heq. simpl in Heq.
      rewrite Heq, Hfalse in Hf. done.
Qed.

Section ArchiveEntries.

Lemma entries_files (d : string) (w w' : World) :
  files w' = files w → fs.entries d w' = fs.entries d w.
Proof. unfold fs.entries. by intros ->. Qed.

Lemma entries_insert (d name : string) (f : File) (w w' : World) :
  files w' = <[fs.dir_prefix d +:+ name := f]> (files w) →
  fs.entries d w' = <[name := f]> (fs.entries d w).
Proof.
  intros Hw. apply map_eq; intros n. rewrite lookup_entries, Hw.
  destruct (decide (name = n)) as [-> | Hne].
  - by rewrite !lookup_insert_eq.
  - rewrite !lookup_insert_ne; [symmetry; apply lookup_entries | done |].
    by intros Heq%(inj (String.app _)).
Qed.

End ArchiveEntries.


(** ** The targets on examples *)

Section TargetExamples.

Import Examples.

(** The factory on [a/b.pkl] with the run identifier [42]. *)
Lemma make_target_path_disambiguation_witness :
  ∃ t1 t0 : SingleFileTarget.t,
    make_target env "a/b.pkl" (Some "42") None None = Py.Ok t1
    ∧ make_target env "a/b.pkl" None None None = Py.Ok t0
    ∧ fs_path (SingleFileTarget._target t1) = "a/b_42.pkl"
    ∧ fs_path (SingleFileTarget._target t0) = "a/b.pkl"
    ∧ fs_path (SingleFileTarget._target t1) ≠ fs_path (SingleFileTarget._target t0).
Proof.
  eexists _, _. split; [vm_compute; reflexivity |]. split; [vm_compute; reflexivity |].
  destruct (make_target_path_disambiguation env "a/b.pkl" "42" None None _ _ _
              eq_refl eq_refl eq_refl) as (_ & _ & H1 & H0 & Hne & _).
  split; [exact H1 |]. split; [exact H0 |]. exact Hne.
Defined.



(** A load through the target opened without reconstruction function,
    one through the target that has it, and a single-file target. *)
Lemma load_keeps_all_but_load_function_witness :
  (∃ s : SingleFileTarget.t,
      make_target env "out/notes.txt" None None None = Py.Ok s
      ∧ (dump (VStr "x") true None None None (s, nowhere)).1.1 = s
      ∧ (load (s, nowhere)).1.1 = s)
  ∧ truthy (ModelTarget._load_function model_target) = true
  ∧ (ModelTarget._load env (model_target, archived "read_marked")).1.1 = model_target
  ∧ truthy (ModelTarget._load_function reader_target) = false
  ∧ Py.is_ok (ModelTarget._load env (reader_target, archived "read_marked")).2 = true
  ∧ ModelTarget._load_function
      (ModelTarget._load env (reader_target, archived "read_marked")).1.1
    = VFunc "read_marked"
  ∧ (ModelTarget._load env (reader_target, archived "read_marked")).1.1 ≠ reader_target.
Proof.
  destruct (load_keeps_all_but_load_function env) as [Hsingle Hmodel].
  split.
  { eexists. split; [vm_compute; reflexivity |].
    destruct (Hsingle
                (SingleFileTarget.mk (mkFileSystemTarget "out/notes.txt" false)
                   TextFileProcessor (make_task_lock_params env "out/notes.txt" None))
                nowhere (VStr "x") true None None None) as (_ & Hl & Hd & _).
    split; [exact Hd | exact Hl]. }
  split; [reflexivity |].
  split.
  { destruct (Hmodel model_target (archived "read_marked")) as (_ & Htrue & _).
    exact (proj1 (Htrue eq_refl)). }
  split; [reflexivity |].
  destruct (Hmodel reader_target (archived "read_marked")) as (_ & _ & Hfalse).
  assert (Py.is_ok (ModelTarget._load env (reader_target, archived "read_marked")).2 = true)
    as Hok by (vm_compute; reflexivity).
  destruct (Hfalse eq_refl Hok) as (_ & Hne & _).
  split; [exact Hok |]. split; [vm_compute; reflexivity | exact Hne].
Defined.

(** C5 as stated fails: a load through the target opened without
    reconstruction function stores the persisted function in the target,
    and the next load through the same target uses it although the
    archive now names another function, which a fresh target reads. *)
Lemma load_caches_load_function_counterexample :
  ModelTarget._load_function reader_target = VNone
  ∧ let '((t', _), r) := ModelTarget.load env (reader_target, archived "read_text") in
    r = Py.Ok (VStr "weights")
    ∧ ModelTarget._load_function t' = VFunc "read_text"
    ∧ t' ≠ reader_target
    ∧ (ModelTarget.load env (t', archived "read_marked")).2 = Py.Ok (VStr "weights")
    ∧ (ModelTarget.load env (reader_target, archived "read_marked")).2
      = Py.Ok (VStr "marked:weights").
Proof.
  split; [reflexivity |].
  destruct (ModelTarget.load env (reader_target, archived "read_text"))
    as [[t' w'] r] eqn:Hload.
  vm_compute in Hload. injection Hload as <- <- <-.
  split; [reflexivity |]. split; [reflexivity |].
  split; [intros Heq; apply (f_equal ModelTarget._load_function) in Heq; discriminate Heq |].
  split; vm_compute; reflexivity.
Qed.



End TargetExamples.


(** * Further properties *)

(** ** The chunked serializer: partition, failures, overwriting *)

Section ChunkedSerializerMore.

Import LargeDataFrameProcessor.
Local Open Scope nat_scope.









End ChunkedSerializerMore.

Section ChunkedSerializerListing.

Import LargeDataFrameProcessor.
Local Open Scope nat_scope.

Variable scandir : Dir → list string.
Hypothesis scandir_lists : ∀ d : Dir, scandir d ≡ₚ (map_to_list d).*1.





End ChunkedSerializerListing.

Section ChunkedSerializerMoreExamples.

Import LargeDataFrameProcessor Examples.



End ChunkedSerializerMoreExamples.

(** ** The factory: run identifiers and extensions *)

Section FilePathMore.

(** The loop of [splitext] finds a character that is no dot when there
    is one between the two indexes. *)
Lemma has_name_before_dot_found (fuel : nat) (p : string) (i d j : Z) :
  i ≤ j < d →
  String.eqb (Str.at_index p j) (String os_path.extsep "") = false →
  (Z.to_nat (d - i) ≤ fuel)%nat →
  os_path.has_name_before_dot fuel p i d = true.
Proof.
  revert i; induction fuel as [|fuel IH]; intros i Hij Hj Hfuel; [lia |].
  cbn [os_path.has_name_before_dot].
  destruct (Z.ltb_spec i d); [| lia].
  destruct (String.eqb (Str.at_index p i) (String os_path.extsep "")) eqn:Hi; [| done].
  simpl. apply IH; [| done | lia].
  destruct (decide (i = j)) as [-> | Hne]; [congruence | lia].
Qed.

Lemma splitext_with_extension (x e : string) (c : ascii) :
  Str.mem os_path.sep (String c "") = false →
  Str.mem os_path.extsep (String c "") = false →
  Str.mem os_path.extsep e = false →
  Str.mem os_path.sep e = false →
  ∀ (b u : string),
    x = b +:+ String c u →
    Str.mem os_path.sep u = false →
    os_path.splitext (x +:+ String os_path.extsep e) = (x, String os_path.extsep e).
Proof.
  intros Hc1 Hc2 He1 He2 b u -> Hu.
  set (x := b +:+ String c u).
  assert (Str.rfind os_path.extsep (x +:+ String os_path.extsep e)
          = Z.of_nat (String.length x)) as Hdot.
  { unfold Str.rfind. rewrite rfind_from_app. cbn [Str.rfind_from].
    rewrite Ascii.eqb_refl. rewrite rfind_from_absent by done. lia. }
  assert (Str.rfind os_path.sep (x +:+ String os_path.extsep e)
          = Str.rfind os_path.sep b) as Hsep.
  { unfold Str.rfind. rewrite rfind_from_app.
    rewrite (rfind_from_absent os_path.sep (String os_path.extsep e)) by done.
    unfold x. rewrite rfind_from_app. apply rfind_from_absent.
    simpl in *. apply orb_false_iff in Hc1 as [-> _]. done. }
  assert (Str.rfind os_path.sep b < Z.of_nat (String.length b)) as Hlt.
  { unfold Str.rfind.
    destruct (rfind_from_bounds os_path.sep b 0 (-1)) as [-> | ?]; lia. }
  assert (String.length x = String.length b + S (String.length u))%nat as Hlen.
  { unfold x. by rewrite str_length_app. }
  unfold os_path.splitext. rewrite Hdot, Hsep.
  destruct (Z.ltb_spec (Str.rfind os_path.sep b) (Z.of_nat (String.length x))); [| lia].
  rewrite (has_name_before_dot_found _ _ _ _ (Z.of_nat (String.length b))).
  - simpl. rewrite Nat2Z.id.
    rewrite <- (Nat.add_0_r (String.length x)) at 1.
    rewrite str_take_app_ge, str_drop_app_length. simpl. by rewrite str_app_nil_r.
  - unfold Str.rfind in *.
    destruct (rfind_from_bounds os_path.sep b 0 (-1)) as [Heq | ?]; [rewrite Heq |]; lia.
  - unfold Str.at_index. rewrite Nat2Z.id. unfold x.
    rewrite str_app_assoc, str_drop_app_length. simpl.
    simpl in Hc2. apply orb_false_iff in Hc2 as [Hc2 _].
    destruct u; simpl; by rewrite Hc2.
  - rewrite str_length_app. unfold Str.rfind in *.
    destruct (rfind_from_bounds os_path.sep b 0 (-1)) as [Heq | ?]; [rewrite Heq |]; lia.
Qed.

(** X6: when the path has an extension and the run identifier contains
    no separator, the final path with the run identifier splits into the
    base followed by an underscore and the run identifier, and the same
    extension: the run identifier does not change the extension, by which
    the processor is chosen. *)
Theorem unique_id_keeps_extension (original_path unique_id : string) :
  (os_path.splitext original_path).2 ≠ "" →
  Str.mem os_path.sep unique_id = false →
  os_path.splitext (_make_file_path original_path (Some unique_id))
  = ((os_path.splitext original_path).1 +:+ "_" +:+ unique_id,
     (os_path.splitext original_path).2)
  ∧ make_file_processor (_make_file_path original_path (Some unique_id))
    = make_file_processor original_path.
Proof.
  intros Hext Hu.
  assert (os_path.splitext (_make_file_path original_path (Some unique_id))
          = ((os_path.splitext original_path).1 +:+ "_" +:+ unique_id,
             (os_path.splitext original_path).2)) as Hsplit.
  { rewrite make_file_path_unique_id.
    destruct (splitext_extension original_path) as [He | (e & He & He1 & He2)]; [done |].
    rewrite He.
    rewrite <- (str_app_assoc _ "_"), <- str_app_assoc.
    rewrite (str_app_assoc _ "_" unique_id).
    by apply (splitext_with_extension _ e "_"%char)
      with (b := (os_path.splitext original_path).1) (u := unique_id). }
  split; [exact Hsplit |].
  unfold make_file_processor. by rewrite Hsplit.
Qed.

Lemma unique_id_keeps_extension_witness :
  (os_path.splitext "out/model.tar.pkl").2 ≠ ""
  ∧ Str.mem os_path.sep "2024_01" = false
  ∧ os_path.splitext (_make_file_path "out/model.tar.pkl" (Some "2024_01"))
    = ("out/model.tar_2024_01", ".pkl").
Proof.
  split; [discriminate |]. split; [reflexivity |].
  apply (unique_id_keeps_extension "out/model.tar.pkl" "2024_01"); [discriminate | reflexivity].
Defined.

(** Without an extension the run identifier can bring one in. *)
Example unique_id_brings_extension :
  os_path.splitext "out/model" = ("out/model", "")
  ∧ os_path.splitext (_make_file_path "out/model" (Some "1.5")) = ("out/model_1", ".5").
Proof. split; reflexivity. Qed.

(** X7: on one path, two run identifiers that give the same final path
    are the same; and the final path with a run identifier is longer than
    the path by the length of the run identifier and one. *)
Theorem unique_id_injective (original_path u1 u2 : string) :
  (_make_file_path original_path (Some u1) = _make_file_path original_path (Some u2) →
   u1 = u2)
  ∧ String.length (_make_file_path original_path (Some u1))
    = (String.length original_path + 1 + String.length u1)%nat.
Proof.
  split.
  - rewrite !make_file_path_unique_id.
    intros Heq%(inj (String.app _))%(inj (String.app _)). by apply str_app_inj_r in Heq.
  - rewrite make_file_path_unique_id.
    rewrite <- (splitext_app original_path) at 3.
    rewrite !str_length_app. simpl. lia.
Qed.

Lemma unique_id_injective_witness :
  _make_file_path "a/b.pkl" (Some "42") = _make_file_path "a/b.pkl" (Some "42")
  ∧ String.length (_make_file_path "a/b.pkl" (Some "42")) = 10%nat.
Proof.
  split; [reflexivity |].
  exact (proj2 (unique_id_injective "a/b.pkl" "42" "42")).
Defined.

(** Two paths with two run identifiers can meet in one final path. *)
Example unique_id_collision :
  _make_file_path "a.pkl" (Some "x_y") = _make_file_path "a_x.pkl" (Some "y").
Proof. reflexivity. Qed.

End FilePathMore.

(** ** [SingleFileTarget]: removal and round trip *)

Section SingleFileTargetMore.

(** X8: [remove] through a single-file target does nothing and returns
    normally when the artifact does not exist; when it exists, [remove]
    deletes the file at the path of the target and no other, after which
    [exists] is false, [load] raises [FileNotFoundError] and a second
    [remove] changes nothing. *)
Theorem remove_single_file (t : SingleFileTarget.t) (w : World) :
  let p := fs_path (SingleFileTarget._target t) in
  (files w !! p = None → remove (t, w) = ((t, w), Py.Ok tt))
  ∧ (is_Some (files w !! p) →
     ∃ w', remove (t, w) = ((t, w'), Py.Ok tt)
           ∧ files w' = delete p (files w)
           ∧ dirs w' = dirs w
           ∧ annotations w' = annotations w
           ∧ exists_ (t, w') = ((t, w'), Py.Ok false)
           ∧ load (t, w') = ((t, w'), Py.Raise Py.FileNotFoundError)
           ∧ remove (t, w') = ((t, w'), Py.Ok tt)).
Proof.
  intros p.
  assert (∀ w0, files w0 !! p = None → remove (t, w0) = ((t, w0), Py.Ok tt)) as Habsent.
  { intros w0 Hnone. unfold remove. unfold Py.bind at 1. rewrite single_file_exists.
    unfold fs.exists_file. fold p. rewrite Hnone.
    by rewrite bool_decide_eq_false_2 by (by intros [? ?]). }
  split; [apply Habsent |].
  intros [f Hf].
  set (w' := {| files := delete p (files w); dirs := dirs w; annotations := annotations w |}).
  assert (files w' !! p = None) as Hgone by apply lookup_delete_eq.
  exists w'. split.
  { unfold remove. unfold Py.bind at 1. rewrite single_file_exists.
    unfold fs.exists_file. fold p. rewrite Hf.
    rewrite bool_decide_eq_true_2 by eauto.
    unfold wrap_remove_with_lock. simpl.
    unfold SingleFileTarget._get_task_lock_params, SingleFileTarget._remove, self, on_world,
      Py.bind, Py.gets, Py.ret, fs.unlink. simpl. fold p. by rewrite Hf. }
  split; [done |]. split; [done |]. split; [done |].
  split.
  { rewrite single_file_exists. unfold fs.exists_file. fold p. rewrite Hgone.
    by rewrite bool_decide_eq_false_2 by (by intros [? ?]). }
  split; [| by apply Habsent].
  rewrite single_file_load. fold p. by rewrite Hgone.
Qed.


End SingleFileTargetMore.

Section SingleFileTargetMoreExamples.

Import Examples.

Lemma remove_single_file_witness :
  files nowhere !! "out/notes.txt" = None
  ∧ remove (notes_target, nowhere) = ((notes_target, nowhere), Py.Ok tt)
  ∧ is_Some (files noted !! "out/notes.txt")
  ∧ ∃ w', remove (notes_target, noted) = ((notes_target, w'), Py.Ok tt)
          ∧ exists_ (notes_target, w') = ((notes_target, w'), Py.Ok false).
Proof.
  destruct (remove_single_file notes_target nowhere) as [Habsent _].
  destruct (remove_single_file notes_target noted) as [_ Hpresent].
  assert (is_Some (files noted !! "out/notes.txt")) as Hsome by (eexists; reflexivity).
  split; [reflexivity |]. split; [exact (Habsent eq_refl) |]. split; [exact Hsome |].
  destruct (Hpresent Hsome) as (w' & Hrm & _ & _ & _ & Hex & _).
  exists w'. split; [exact Hrm | exact Hex].
Defined.


End SingleFileTargetMoreExamples.

(** ** [ModelTarget]: what a dump stores and a load gets back *)

Section ModelTargetMore.

Variable env : Env.

Lemma archived_entries_model (temporary_directory : string) (load_function : Value)
    (payload : File) (w : World) :
  archived_entries env temporary_directory load_function payload w !! "model.pkl" = Some payload.
Proof.
  unfold archived_entries. destruct (_ && _).
  - apply lookup_insert_eq.
  - rewrite lookup_insert_ne by done. apply lookup_insert_eq.
Qed.

(** The world after a dump. *)
Lemma model_dump_result (file_path temporary_directory : string) (load_function : Value)
    (save_function : Value → string → Py.M World unit) (lock : TaskLockParams) (obj : Value)
    (task_params custom_labels : Labels) (required_task_outputs : RequiredTaskOutputs)
    (w : World) (payload : File) :
  let t := ModelTarget.init file_path temporary_directory load_function save_function lock in
  temporary_directory ≠ "" →
  fs.exists_file temporary_directory w = false →
  ¬ fs.below temporary_directory file_path →
  (∀ w0, save_function obj (ModelTarget._model_path t) w0
         = fs.write (ModelTarget._model_path t) payload w0) →
  ∃ w', ModelTarget._dump env obj task_params custom_labels required_task_outputs (t, w)
        = ((t, w'), Py.Ok tt)
        ∧ files w'
          = <[file_path := Archive (archived_entries env temporary_directory load_function
                                      payload w)]>
              (filter (λ kv, ¬ fs.below temporary_directory kv.1) (files w))
        ∧ fs.isdir temporary_directory w' = false.
Proof.
  intros t Htmp Hfile Hout Hsave.
  assert (Hmp : ModelTarget._model_path t = fs.dir_prefix temporary_directory +:+ "model.pkl").
  { unfold ModelTarget._model_path. simpl. by apply join_dir_prefix. }
  assert (Hlp : os_path.join temporary_directory "load_function.pkl"
                = fs.dir_prefix temporary_directory +:+ "load_function.pkl").
  { by apply join_dir_prefix. }
  rewrite model_dump_steps. cbn [t ModelTarget.init ModelTarget._temporary_directory
    ModelTarget._save_function ModelTarget._load_function ModelTarget._zip_client].
  unfold fs.makedirs_exist_ok. rewrite Hfile.
  destruct (String.eqb_spec temporary_directory "") as [| _]; [done |].
  fold t. rewrite Hsave. unfold fs.write at 1, Py.modify at 1. cbn [files dirs annotations].
  set (w1 := {| files := <[ModelTarget._model_path t := payload]> (files w);
                dirs := {[temporary_directory]} ∪ dirs w;
                annotations := annotations w |}).
  unfold ModelTarget._load_function_path.
  cbn [t ModelTarget.init ModelTarget._temporary_directory].
  destruct (nested_dump env temporary_directory load_function task_params custom_labels
              required_task_outputs w1) as (w2 & -> & Hdirs & Hfiles).
  assert (fs.isdir temporary_directory w2 = true) as Hdir2.
  { apply isdir_created; [done |]. rewrite Hdirs.
    apply elem_of_union_l. by apply elem_of_singleton. }
  unfold ZipClient.make_archive, make_zip_client. cbn [ZipClient.temporary_directory
    ZipClient.file_path].
  unfold Py.bind at 1. unfold Py.gets at 1. rewrite Hdir2.
  unfold Py.bind at 1. unfold Py.gets at 1. unfold fs.write, Py.modify.
  set (w3 := {| files := <[file_path := Archive (fs.entries temporary_directory w2)]> (files w2);
                dirs := dirs w2; annotations := annotations w2 |}).
  assert (fs.isdir temporary_directory w3 = true) as Hdir3.
  { apply isdir_created; [done |]. simpl. rewrite Hdirs.
    apply elem_of_union_l. by apply elem_of_singleton. }
  destruct (fs.rmtree temporary_directory w3) as [w4 r] eqn:Hrm.
  assert (r = Py.Ok tt
          ∧ files w4 = filter (λ kv, ¬ fs.below temporary_directory kv.1) (files w3))
    as [-> Hw4].
  { unfold fs.rmtree in Hrm. rewrite Hdir3 in Hrm. by injection Hrm as <- <-. }
  exists w4. split; [done |]. split; [| by eapply rmtree_ok].
  assert (fs.exists_file (os_path.join temporary_directory "load_function.pkl") w1
          = fs.exists_file (os_path.join temporary_directory "load_function.pkl") w)
    as Hexists.
  { unfold fs.exists_file. apply bool_decide_ext.
    unfold w1. simpl. rewrite Hlp, Hmp. rewrite lookup_insert_ne; [done |].
    by intros Heq%(inj (String.app _)). }
  assert (fs.entries temporary_directory w1
          = <["model.pkl" := payload]> (fs.entries temporary_directory w)) as He1.
  { apply entries_insert. unfold w1. simpl. by rewrite Hmp. }
  assert (fs.entries temporary_directory w2
          = archived_entries env temporary_directory load_function payload w) as He2.
  { unfold archived_entries. rewrite Hexists in Hfiles.
    destruct (lock_skips_existing env && _).
    - rewrite <- He1. by apply entries_files.
    - rewrite <- He1. apply entries_insert. by rewrite Hfiles, Hlp. }
  rewrite Hw4. unfold w3. cbn [files]. rewrite He2.
  rewrite map_filter_insert_True by done. f_equal.
  assert (filter (λ kv : string * File, ¬ fs.below temporary_directory kv.1) (files w1)
          = filter (λ kv, ¬ fs.below temporary_directory kv.1) (files w)) as Hf1.
  { unfold w1. cbn [files]. apply map_filter_insert_not. intros y Hy. apply Hy.
    simpl. rewrite Hmp. apply below_iff. eauto. }
  destruct (lock_skips_existing env && _).
  - by rewrite Hfiles.
  - rewrite Hfiles, <- Hf1. apply map_filter_insert_not. intros y Hy. apply Hy.
    simpl. rewrite Hlp. apply below_iff. eauto.
Qed.

(** A load from a world where the archive is stored and nothing lies
    below the scratch directory, by a reconstruction function that reads
    the model and leaves the world as it is. *)
Lemma model_load_result (file_path temporary_directory : string) (load_function : Value)
    (save_function : Value → string → Py.M World unit) (lock : TaskLockParams)
    (w : World) (es : gmap string File) :
  let t := ModelTarget.init file_path temporary_directory load_function save_function lock in
  let w1 := fs.extract temporary_directory es w in
  temporary_directory ≠ "" →
  files w !! file_path = Some (Archive es) →
  (∀ n f, es !! n = Some f →
          files w1 !! (fs.dir_prefix temporary_directory +:+ n) = Some f)
  ∧ fs.isdir temporary_directory w1 = true
  ∧ ModelTarget._load env (t, w)
    = match (if truthy load_function then Py.Ok load_function
             else match files w1 !! ModelTarget._load_function_path t with
                  | Some f => fp_load PickleFileProcessor f
                  | None => Py.Raise Py.FileNotFoundError
                  end) with
      | Py.Raise e => ((t, w1), Py.Raise e)
      | Py.Ok f =>
        match call env f (ModelTarget._model_path t) w1 with
        | (w3, Py.Raise e) => ((ModelTarget.set_load_function t f, w3), Py.Raise e)
        | (w3, Py.Ok model) =>
          match fs.rmtree temporary_directory w3 with
          | (w4, Py.Ok _) => ((ModelTarget.set_load_function t f, w4), Py.Ok model)
          | (w4, Py.Raise e) => ((ModelTarget.set_load_function t f, w4), Py.Raise e)
          end
        end
      end.
Proof.
  intros t w1 Htmp Hfile. split; [| split].
  - intros n f Hn. unfold w1, fs.extract. cbn [files].
    apply lookup_union_Some_l. rewrite lookup_kmap; [done | apply _].
  - apply isdir_created; [done |]. unfold w1, fs.extract. cbn [dirs].
    destruct (String.eqb_spec temporary_directory "") as [| _]; [done |].
    apply elem_of_union_l. by apply elem_of_singleton.
  - rewrite model_load_steps.
    unfold ZipClient.unpack_archive. unfold Py.bind at 1. unfold fs.read.
    cbn [t ModelTarget.init ModelTarget._zip_client make_zip_client ZipClient.file_path
      ZipClient.temporary_directory ModelTarget._load_function
      ModelTarget._temporary_directory].
    rewrite Hfile. unfold Py.modify. reflexivity.
Qed.

Lemma model_dump_public (t : ModelTarget.t) (obj : Value) (lock_at_dump : bool)
    (task_params custom_labels : Labels) (required_task_outputs : RequiredTaskOutputs)
    (w : World) :
  ModelTarget.dump env obj lock_at_dump task_params custom_labels required_task_outputs (t, w)
  = if lock_at_dump && skip_existing (ModelTarget._task_lock_params t)
       && fs.exists_file (ZipClient.file_path (ModelTarget._zip_client t)) w
    then ((t, w), Py.Ok tt)
    else ModelTarget._dump env obj task_params custom_labels required_task_outputs (t, w).
Proof.
  unfold ModelTarget.dump, dump, wrap_dump_with_lock. destruct lock_at_dump; [| done].
  cbn [andb _get_task_lock_params _dump exists_ _exists ModelTarget.target].
  unfold Py.bind at 1. unfold ModelTarget._get_task_lock_params at 1.
  unfold Py.bind at 1. unfold self at 1. unfold Py.gets at 1. unfold Py.ret at 1.
  cbn [fst snd].
  destruct (skip_existing _); [| done]. cbn [andb].
  unfold Py.bind at 1. unfold ModelTarget._exists, ZipClient.exists_, self, on_world.
  unfold Py.bind at 1. unfold Py.gets. cbn [fst snd].
  by destruct (fs.exists_file _ w).
Qed.

Lemma model_exists (t : ModelTarget.t) (w : World) :
  ModelTarget.exists_ env (t, w)
  = ((t, w), Py.Ok (fs.exists_file (ZipClient.file_path (ModelTarget._zip_client t)) w)).
Proof. reflexivity. Qed.

(** X10: a dump through an archive model target that the lock protocol
    does not skip, with a free scratch path, an archive path outside the
    scratch directory and a save function that writes the model payload
    to the path it is given, returns normally and leaves the archive at
    the archive path, nothing below the scratch directory (the files an
    earlier run left there are deleted after they were archived) and every
    other file as it was. *)
Theorem dump_stores_archive_only (file_path temporary_directory : string)
    (load_function : Value) (save_function : Value → string → Py.M World unit)
    (lock : TaskLockParams) (obj : Value) (lock_at_dump : bool)
    (task_params custom_labels : Labels) (required_task_outputs : RequiredTaskOutputs)
    (w : World) (payload : File) :
  let t := ModelTarget.init file_path temporary_directory load_function save_function lock in
  temporary_directory ≠ "" →
  fs.exists_file temporary_directory w = false →
  ¬ fs.below temporary_directory file_path →
  (∀ w0, save_function obj (ModelTarget._model_path t) w0
         = fs.write (ModelTarget._model_path t) payload w0) →
  lock_at_dump && skip_existing lock && fs.exists_file file_path w = false →
  ∃ w', ModelTarget.dump env obj lock_at_dump task_params custom_labels
          required_task_outputs (t, w)
        = ((t, w'), Py.Ok tt)
        ∧ ModelTarget.exists_ env (t, w') = ((t, w'), Py.Ok true)
        ∧ fs.isdir temporary_directory w' = false
        ∧ (∀ p, fs.below temporary_directory p → files w' !! p = None)
        ∧ (∀ p, p ≠ file_path → ¬ fs.below temporary_directory p →
                files w' !! p = files w !! p).
Proof.
  intros t Htmp Hfile Hout Hsave Hrun.
  destruct (model_dump_result file_path temporary_directory load_function save_function lock
              obj task_params custom_labels required_task_outputs w payload
              Htmp Hfile Hout Hsave) as (w' & Hdump & Hfiles & Hdir).
  exists w'. split.
  { rewrite model_dump_public.
    cbn [t ModelTarget.init ModelTarget._task_lock_params ModelTarget._zip_client
      make_zip_client ZipClient.file_path].
    by rewrite Hrun. }
  split.
  { rewrite model_exists. cbn [t ModelTarget.init ModelTarget._zip_client make_zip_client
      ZipClient.file_path].
    unfold fs.exists_file. rewrite Hfiles, lookup_insert_eq.
    by rewrite bool_decide_eq_true_2 by eauto. }
  split; [exact Hdir |]. split.
  - intros p Hp. rewrite Hfiles.
    rewrite lookup_insert_ne by (by intros ->).
    apply map_lookup_filter_None. right. intros f _ Hnot. by apply Hnot.
  - intros p Hne Hp. rewrite Hfiles, lookup_insert_ne by done.
    destruct (files w !! p) as [f|] eqn:Hf.
    + by apply map_lookup_filter_Some.
    + apply map_lookup_filter_None. by left.
Qed.

(** A dump followed by a load through a target on the same paths. *)
Lemma model_dump_then_load (file_path temporary_directory : string)
    (load_function load_function' : Value)
    (save_function save_function' : Value → string → Py.M World unit)
    (lock lock' : TaskLockParams) (obj : Value) (lock_at_dump : bool)
    (task_params custom_labels : Labels) (required_task_outputs : RequiredTaskOutputs)
    (w : World) (payload : File) (model : Value) :
  let dumper :=
    ModelTarget.init file_path temporary_directory load_function save_function lock in
  let loader :=
    ModelTarget.init file_path temporary_directory load_function' save_function' lock' in
  let f := if truthy load_function' then load_function' else load_function in
  temporary_directory ≠ "" →
  fs.exists_file temporary_directory w = false →
  ¬ fs.below temporary_directory file_path →
  (∀ w0, save_function obj (ModelTarget._model_path dumper) w0
         = fs.write (ModelTarget._model_path dumper) payload w0) →
  lock_at_dump && skip_existing lock && fs.exists_file file_path w = false →
  lock_skips_existing env
    && fs.exists_file (os_path.join temporary_directory "load_function.pkl") w = false →
  (∀ w1, files w1 !! ModelTarget._model_path loader = Some payload →
         call env f (ModelTarget._model_path loader) w1 = (w1, Py.Ok model)) →
  ∃ w' w'',
    ModelTarget.dump env obj lock_at_dump task_params custom_labels required_task_outputs
      (dumper, w)
    = ((dumper, w'), Py.Ok tt)
    ∧ ModelTarget.exists_ env (loader, w') = ((loader, w'), Py.Ok true)
    ∧ ModelTarget.load env (loader, w')
      = ((ModelTarget.set_load_function loader f, w''), Py.Ok model)
    ∧ fs.isdir temporary_directory w'' = false
    ∧ files w'' = files w'.
Proof.
  intros dumper loader f Htmp Hfile Hout Hsave Hrun Hfresh Hcall.
  destruct (model_dump_result file_path temporary_directory load_function save_function lock
              obj task_params custom_labels required_task_outputs w payload
              Htmp Hfile Hout Hsave) as (w' & Hdump & Hfiles & Hdir).
  set (es := archived_entries env temporary_directory load_function payload w) in *.
  assert (files w' !! file_path = Some (Archive es)) as Harchive.
  { by rewrite Hfiles, lookup_insert_eq. }
  assert (∀ p, fs.below temporary_directory p → files w' !! p = None) as Hclean.
  { intros p Hp. rewrite Hfiles.
    rewrite lookup_insert_ne by (by intros ->).
    apply map_lookup_filter_None. right. intros f0 _ Hnot. by apply Hnot. }
  destruct (model_load_result file_path temporary_directory load_function' save_function'
              lock' w' es Htmp Harchive) as (Hw1 & Hdir1 & Hload).
  set (w1 := fs.extract temporary_directory es w') in *.
  assert (Hmp : ModelTarget._model_path loader
                = fs.dir_prefix temporary_directory +:+ "model.pkl").
  { unfold ModelTarget._model_path. simpl. by apply join_dir_prefix. }
  assert (Hlp : ModelTarget._load_function_path loader
                = fs.dir_prefix temporary_directory +:+ "load_function.pkl").
  { unfold ModelTarget._load_function_path. simpl. by apply join_dir_prefix. }
  assert (files w1 !! ModelTarget._model_path loader = Some payload) as Hpayload.
  { rewrite Hmp. apply Hw1. apply archived_entries_model. }
  assert ((if truthy load_function' then Py.Ok load_function'
           else match files w1 !! ModelTarget._load_function_path loader with
                | Some f0 => fp_load PickleFileProcessor f0
                | None => Py.Raise Py.FileNotFoundError
                end) = Py.Ok f) as Hresolved.
  { unfold f. destruct (truthy load_function'); [done |].
    rewrite Hlp, (Hw1 "load_function.pkl" (Pickled load_function)); [done |].
    unfold es, archived_entries. rewrite Hfresh. apply lookup_insert_eq. }
  fold loader in Hload. rewrite Hresolved, (Hcall w1 Hpayload) in Hload.
  destruct (fs.rmtree temporary_directory w1) as [w4 r] eqn:Hrm.
  assert (r = Py.Ok tt
          ∧ files w4 = filter (λ kv, ¬ fs.below temporary_directory kv.1) (files w1))
    as [-> Hw4].
  { unfold fs.rmtree in Hrm. rewrite Hdir1 in Hrm. by injection Hrm as <- <-. }
  exists w', w4. split.
  { rewrite model_dump_public.
    cbn [dumper ModelTarget.init ModelTarget._task_lock_params ModelTarget._zip_client
      make_zip_client ZipClient.file_path].
    by rewrite Hrun. }
  split.
  { rewrite model_exists. cbn [loader ModelTarget.init ModelTarget._zip_client
      make_zip_client ZipClient.file_path].
    unfold fs.exists_file. rewrite Harchive.
    by rewrite bool_decide_eq_true_2 by eauto. }
  split; [by rewrite model_load_public |].
  split; [by eapply rmtree_ok |].
  rewrite Hw4. apply map_eq; intros p.
  destruct (decide (fs.below temporary_directory p)) as [Hp | Hp].
  - rewrite (Hclean p Hp). apply map_lookup_filter_None. right.
    intros f0 _ Hnot. by apply Hnot.
  - assert (files w1 !! p = files w' !! p) as Hsame.
    { unfold w1, fs.extract. cbn [files]. apply lookup_union_r.
      apply lookup_kmap_None; [apply _ |]. intros n ->. exfalso. apply Hp.
      apply below_iff. eauto. }
    destruct (files w' !! p) as [f0|] eqn:Hf.
    + apply map_lookup_filter_Some. by rewrite Hsame.
    + apply map_lookup_filter_None. left. by rewrite Hsame.
Qed.

(** X11: what an archive model target dumps, a target on the same
    paths loads back.  After a dump as in X10, made when the lock protocol
    would not keep an older [load_function.pkl], the load through a target
    with its own reconstruction function calls that one, and the load
    through a target without one calls the function of the dumping target,
    read from the archive; when that function reads the payload at the
    path it is given, the load returns its result, stores the function in
    the target, and leaves the scratch directory removed and the files as
    the dump left them. *)
Theorem dump_load_model (file_path temporary_directory : string)
    (load_function load_function' : Value)
    (save_function save_function' : Value → string → Py.M World unit)
    (lock lock' : TaskLockParams) (obj : Value) (lock_at_dump : bool)
    (task_params custom_labels : Labels) (required_task_outputs : RequiredTaskOutputs)
    (w : World) (payload : File) (model : Value) :
  let dumper :=
    ModelTarget.init file_path temporary_directory load_function save_function lock in
  let loader :=
    ModelTarget.init file_path temporary_directory load_function' save_function' lock' in
  let f := if truthy load_function' then load_function' else load_function in
  temporary_directory ≠ "" →
  fs.exists_file temporary_directory w = false →
  ¬ fs.below temporary_directory file_path →
  (∀ w0, save_function obj (ModelTarget._model_path dumper) w0
         = fs.write (ModelTarget._model_path dumper) payload w0) →
  lock_at_dump && skip_existing lock && fs.exists_file file_path w = false →
  lock_skips_existing env
    && fs.exists_file (os_path.join temporary_directory "load_function.pkl") w = false →
  (∀ w1, files w1 !! ModelTarget._model_path loader = Some payload →
         call env f (ModelTarget._model_path loader) w1 = (w1, Py.Ok model)) →
  ∃ w' w'',
    ModelTarget.dump env obj lock_at_dump task_params custom_labels required_task_outputs
      (dumper, w)
    = ((dumper, w'), Py.Ok tt)
    ∧ ModelTarget.exists_ env (loader, w') = ((loader, w'), Py.Ok true)
    ∧ ModelTarget.load env (loader, w')
      = ((ModelTarget.set_load_function loader f, w''), Py.Ok model)
    ∧ fs.isdir temporary_directory w'' = false
    ∧ files w'' = files w'.
Proof. apply model_dump_then_load. Qed.

(** X12: a reconstruction function that is not a function is dumped
    as it is, and found out only by the load: after a dump as in X10
    through a target whose reconstruction function is not callable, for
    one [None], the load through a target without reconstruction function
    reads that value from the archive, stores it in the target, and raises
    [TypeError] when it calls it, with the unpacked scratch directory left
    behind. *)
Theorem load_function_not_callable (file_path temporary_directory : string)
    (load_function load_function' : Value)
    (save_function save_function' : Value → string → Py.M World unit)
    (lock lock' : TaskLockParams) (obj : Value) (lock_at_dump : bool)
    (task_params custom_labels : Labels) (required_task_outputs : RequiredTaskOutputs)
    (w : World) (payload : File) :
  let dumper :=
    ModelTarget.init file_path temporary_directory load_function save_function lock in
  let loader :=
    ModelTarget.init file_path temporary_directory load_function' save_function' lock' in
  temporary_directory ≠ "" →
  fs.exists_file temporary_directory w = false →
  ¬ fs.below temporary_directory file_path →
  (∀ w0, save_function obj (ModelTarget._model_path dumper) w0
         = fs.write (ModelTarget._model_path dumper) payload w0) →
  lock_at_dump && skip_existing lock && fs.exists_file file_path w = false →
  lock_skips_existing env
    && fs.exists_file (os_path.join temporary_directory "load_function.pkl") w = false →
  (∀ qualname, load_function ≠ VFunc qualname) →
  truthy load_function' = false →
  ∃ w' w'',
    ModelTarget.dump env obj lock_at_dump task_params custom_labels required_task_outputs
      (dumper, w)
    = ((dumper, w'), Py.Ok tt)
    ∧ ModelTarget.load env (loader, w')
      = ((ModelTarget.set_load_function loader load_function, w''), Py.Raise Py.TypeError)
    ∧ fs.isdir temporary_directory w'' = true
    ∧ files w'' !! ModelTarget._model_path loader = Some payload.
Proof.
  intros dumper loader Htmp Hfile Hout Hsave Hrun Hfresh Hnot Hfalse.
  destruct (model_dump_result file_path temporary_directory load_function save_function lock
              obj task_params custom_labels required_task_outputs w payload
              Htmp Hfile Hout Hsave) as (w' & Hdump & Hfiles & Hdir).
  set (es := archived_entries env temporary_directory load_function payload w) in *.
  assert (files w' !! file_path = Some (Archive es)) as Harchive.
  { by rewrite Hfiles, lookup_insert_eq. }
  destruct (model_load_result file_path temporary_directory load_function' save_function'
              lock' w' es Htmp Harchive) as (Hw1 & Hdir1 & Hload).
  set (w1 := fs.extract temporary_directory es w') in *.
  assert (Hmp : ModelTarget._model_path loader
                = fs.dir_prefix temporary_directory +:+ "model.pkl").
  { unfold ModelTarget._model_path. simpl. by apply join_dir_prefix. }
  assert (Hlp : ModelTarget._load_function_path loader
                = fs.dir_prefix temporary_directory +:+ "load_function.pkl").
  { unfold ModelTarget._load_function_path. simpl. by apply join_dir_prefix. }
  assert (files w1 !! ModelTarget._load_function_path loader
          = Some (Pickled load_function)) as Hstored.
  { rewrite Hlp. apply Hw1. unfold es, archived_entries. rewrite Hfresh.
    apply lookup_insert_eq. }
  fold loader in Hload. rewrite Hfalse, Hstored in Hload.
  cbn [fp_load PickleFileProcessor] in Hload.
  assert (call env load_function (ModelTarget._model_path loader) w1
          = (w1, Py.Raise Py.TypeError)) as Hcall.
  { destruct load_function; try done. by destruct (Hnot qualname). }
  rewrite Hcall in Hload.
  exists w', w1. split.
  { rewrite model_dump_public.
    cbn [dumper ModelTarget.init ModelTarget._task_lock_params ModelTarget._zip_client
      make_zip_client ZipClient.file_path].
    by rewrite Hrun. }
  split; [by rewrite model_load_public |].
  split; [exact Hdir1 |].
  rewrite Hmp. apply Hw1. apply archived_entries_model.
Qed.


End ModelTargetMore.

(** ** The factory of archive model targets *)

Section ModelTargetFactory.

Lemma hex_digit_not_sep (n : Z) : Ascii.eqb (hashlib.hex_digit n) os_path.sep = false.
Proof.
  unfold hashlib.hex_digit. generalize (Z.to_nat n) as k. intros k.
  do 16 (destruct k as [|k]; [reflexivity |]). by destruct k.
Qed.

Lemma hex_spec (bs : list Z) :
  String.length (hashlib.hex bs) = (2 * length bs)%nat
  ∧ Str.mem os_path.sep (hashlib.hex bs) = false.
Proof.
  induction bs as [|b bs [IHl IHm]]; [done |].
  cbn [hashlib.hex foldr]. fold (hashlib.hex bs). split.
  - cbn [String.length length]. rewrite IHl. lia.
  - cbn [Str.mem]. by rewrite !hex_digit_not_sep, IHm.
Qed.

(** The digest is 32 characters, none of them a separator. *)
Lemma md5_hexdigest_spec (msg : string) :
  String.length (hashlib.md5_hexdigest msg) = 32%nat
  ∧ Str.mem os_path.sep (hashlib.md5_hexdigest msg) = false.
Proof.
  unfold hashlib.md5_hexdigest.
  destruct (hashlib.digest_state _) as [[[a b] c] d].
  destruct (hex_spec (hashlib.to_bytes_le 4 a ++ hashlib.to_bytes_le 4 b
                        ++ hashlib.to_bytes_le 4 c ++ hashlib.to_bytes_le 4 d))
    as [Hl Hm].
  split; [| exact Hm]. rewrite Hl. reflexivity.
Qed.

Lemma str_startswith_mem (c : ascii) (s : string) :
  Str.mem c s = false → Str.startswith s (String c "") = false.
Proof.
  destruct s as [|a s]; [done |]. cbn [Str.mem]. intros [Ha _]%orb_false_iff.
  unfold Str.startswith. simpl. destruct (ascii_dec c a) as [-> |]; [| done].
  by rewrite Ascii.eqb_refl in Ha.
Qed.

Lemma str_endswith_mem (c : ascii) (a s : string) :
  s ≠ "" → Str.mem c s = false → Str.endswith (a +:+ s) (String c "") = false.
Proof.
  intros Hne Hm. unfold Str.endswith. apply andb_false_iff. right.
  rewrite str_length_app. cbn [String.length].
  replace (String.length a + String.length s - 1)%nat
    with (String.length a + (String.length s - 1))%nat by (destruct s; [done | simpl; lia]).
  rewrite str_drop_app_ge.
  pose proof (str_mem_drop c (String.length s - 1) s Hm) as Hd.
  destruct (String.eqb_spec (Str.drop (String.length s - 1) s) (String c "")) as [He |];
    [| done].
  rewrite He in Hd. simpl in Hd. by rewrite Ascii.eqb_refl in Hd.
Qed.

(** The scratch directory of a target of the factory. *)
Lemma scratch_directory (temporary_directory final_path : string) :
  let scratch := os_path.join temporary_directory (hashlib.md5_hexdigest final_path) in
  scratch = fs.dir_prefix temporary_directory +:+ hashlib.md5_hexdigest final_path
  ∧ scratch ≠ ""
  ∧ fs.dir_prefix scratch = scratch +:+ "/".
Proof.
  intros scratch.
  destruct (md5_hexdigest_spec final_path) as [Hl Hm].
  assert (scratch = fs.dir_prefix temporary_directory +:+ hashlib.md5_hexdigest final_path)
    as Hs by (by apply join_dir_prefix, str_startswith_mem).
  assert (scratch ≠ "") as Hne.
  { intros He%(f_equal String.length). rewrite Hs, str_length_app, Hl in He.
    simpl in He. lia. }
  split; [exact Hs |]. split; [exact Hne |].
  unfold fs.dir_prefix at 1. unfold os_path.join.
  change (Str.startswith "" (String os_path.sep "")) with false. cbv iota.
  destruct (String.eqb_spec scratch "") as [| _]; [done |]. cbn [orb].
  rewrite Hs at 1. rewrite str_endswith_mem; [by rewrite str_app_nil_r | | exact Hm].
  intros He. by rewrite He in Hl.
Qed.

(** The digests of RFC 1321 and of the archive paths of the examples. *)
Example md5_empty : hashlib.md5_hexdigest "" = "d41d8cd98f00b204e9800998ecf8427e".
Proof. vm_compute. reflexivity. Qed.
Example md5_a : hashlib.md5_hexdigest "a" = "0cc175b9c0f1b6a831c399e269772661".
Proof. vm_compute. reflexivity. Qed.
Example md5_abc : hashlib.md5_hexdigest "abc" = "900150983cd24fb0d6963f7d28e17f72".
Proof. vm_compute. reflexivity. Qed.
Example md5_md : hashlib.md5_hexdigest "message digest" = "f96b697d7cb7938d525a2f31aaf161d0".
Proof. vm_compute. reflexivity. Qed.
Example md5_zip : hashlib.md5_hexdigest "out/model.zip" = "38e96ec1b84a0d238c23900a5abb7eeb".
Proof. vm_compute. reflexivity. Qed.
Example md5_55 : hashlib.md5_hexdigest "aaaaaaaaaaaaaaaaaaaaaaaaaaaaaaaaaaaaaaaaaaaaaaaaaaaaaaa" = "ef1772b6dff9a122358552954ad0df65".
Proof. vm_compute. reflexivity. Qed.
Example md5_56 : hashlib.md5_hexdigest "aaaaaaaaaaaaaaaaaaaaaaaaaaaaaaaaaaaaaaaaaaaaaaaaaaaaaaaa" = "3b0c8ac703f828b04c6c197006d17218".
Proof. vm_compute. reflexivity. Qed.
Example md5_64 : hashlib.md5_hexdigest "aaaaaaaaaaaaaaaaaaaaaaaaaaaaaaaaaaaaaaaaaaaaaaaaaaaaaaaaaaaaaaaa" = "014842d480b571495a4a0363793f7367".
Proof. vm_compute. reflexivity. Qed.

Variable env : Env.

(** X13: the scratch directory of a target of [make_model_target] is
    the directory named by the MD5 digest of the archive path, run
    identifier included, directly below the given temporary directory: 32
    characters without a separator, so the scratch path is never empty and
    never the temporary directory itself, and two targets can have a file
    below the scratch directories of both only when the digests of their
    archive paths are the same. *)
Theorem make_model_target_scratch (file_path file_path' temporary_directory : string)
    (save_function save_function' : Value → string → Py.M World unit)
    (load_function load_function' : Value) (unique_id unique_id' : option string)
    (task_lock_params task_lock_params' : option TaskLockParams) :
  let t := make_model_target env file_path temporary_directory save_function load_function
             unique_id task_lock_params in
  let t' := make_model_target env file_path' temporary_directory save_function'
              load_function' unique_id' task_lock_params' in
  let digest := hashlib.md5_hexdigest (_make_file_path file_path unique_id) in
  let digest' := hashlib.md5_hexdigest (_make_file_path file_path' unique_id') in
  ZipClient.file_path (ModelTarget._zip_client t) = _make_file_path file_path unique_id
  ∧ ModelTarget._temporary_directory t = fs.dir_prefix temporary_directory +:+ digest
  ∧ ZipClient.temporary_directory (ModelTarget._zip_client t)
    = ModelTarget._temporary_directory t
  ∧ String.length digest = 32%nat
  ∧ Str.mem os_path.sep digest = false
  ∧ ModelTarget._temporary_directory t ≠ ""
  ∧ ModelTarget._temporary_directory t ≠ temporary_directory
  ∧ ModelTarget._model_path t = ModelTarget._temporary_directory t +:+ "/model.pkl"
  ∧ (∀ p, fs.below (ModelTarget._temporary_directory t) p →
          fs.below (ModelTarget._temporary_directory t') p →
          digest = digest').
Proof.
  intros t t' digest digest'. subst digest digest'.
  destruct (md5_hexdigest_spec (_make_file_path file_path unique_id)) as [Hl Hm].
  destruct (md5_hexdigest_spec (_make_file_path file_path' unique_id')) as [Hl' Hm'].
  destruct (scratch_directory temporary_directory (_make_file_path file_path unique_id))
    as (Hs & Hne & Hp).
  destruct (scratch_directory temporary_directory (_make_file_path file_path' unique_id'))
    as (Hs' & Hne' & Hp').
  cbn zeta in Hs, Hne, Hp, Hs', Hne', Hp'.
  cbn [t t' make_model_target ModelTarget.init ModelTarget._temporary_directory
    ModelTarget._zip_client make_zip_client ZipClient.file_path
    ZipClient.temporary_directory].
  unfold ModelTarget._model_path.
  cbn [t t' make_model_target ModelTarget.init ModelTarget._temporary_directory].
  set (digest := hashlib.md5_hexdigest (_make_file_path file_path unique_id)) in *.
  set (digest' := hashlib.md5_hexdigest (_make_file_path file_path' unique_id')) in *.
  set (scratch := os_path.join temporary_directory digest) in *.
  set (scratch' := os_path.join temporary_directory digest') in *.
  split; [done |]. split; [exact Hs |]. split; [done |].
  split; [exact Hl |]. split; [exact Hm |]. split; [exact Hne |].
  split.
  { rewrite Hs. intros He.
    destruct (dir_prefix_cases temporary_directory) as [H0 | [x Hx]].
    - rewrite H0, str_app_nil_l in He. apply (f_equal String.length) in He.
      unfold fs.dir_prefix, os_path.join in H0.
      change (Str.startswith "" (String os_path.sep "")) with false in H0. cbv iota in H0.
      destruct (String.eqb_spec temporary_directory "") as [E | E].
      + rewrite E in He. rewrite Hl in He. done.
      + cbn [orb] in H0. destruct (Str.endswith temporary_directory _);
          apply (f_equal String.length) in H0; rewrite ?str_length_app in H0;
          simpl in H0; lia.
    - apply (f_equal String.length) in He. rewrite str_length_app, Hl in He.
      assert (String.length temporary_directory ≤ String.length (fs.dir_prefix temporary_directory))%nat; [| lia].
      unfold fs.dir_prefix, os_path.join.
      change (Str.startswith "" (String os_path.sep "")) with false. cbv iota.
      destruct (_ || _); rewrite ?str_length_app; lia. }
  split.
  { rewrite join_dir_prefix by done. rewrite Hp. by rewrite str_app_assoc. }
  intros p [n Hn]%below_iff [n' Hn']%below_iff.
  rewrite Hp, Hs in Hn. rewrite Hp', Hs' in Hn'.
  rewrite !str_app_assoc in Hn, Hn'. rewrite Hn in Hn'.
  apply (inj (String.app _)) in Hn'.
  apply (f_equal (Str.take 32)) in Hn'.
  rewrite <- Hl in Hn' at 1. rewrite <- Hl' in Hn' at 1.
  rewrite <- (Nat.add_0_r (String.length digest)) in Hn'.
  rewrite <- (Nat.add_0_r (String.length digest')) in Hn'.
  rewrite !str_take_app_ge in Hn'. cbn [Str.take] in Hn'.
  by rewrite !str_app_nil_r in Hn'.
Qed.

(** X14: an archive dumped through a target of [make_model_target] is
    loaded back through any target that the factory makes for the same
    archive path, temporary directory and run identifier, whatever its
    functions and lock: both work in the same scratch directory, which is
    never the empty path, so that with a free scratch path, an archive
    path outside it, a save function that writes the payload and a
    reconstruction function that reads it, the load returns the model and
    leaves no scratch directory. *)
Theorem make_model_target_round_trip (file_path temporary_directory : string)
    (save_function save_function' : Value → string → Py.M World unit)
    (load_function load_function' : Value) (unique_id : option string)
    (task_lock_params task_lock_params' : option TaskLockParams)
    (obj : Value) (lock_at_dump : bool)
    (task_params custom_labels : Labels) (required_task_outputs : RequiredTaskOutputs)
    (w : World) (payload : File) (model : Value) :
  let dumper := make_model_target env file_path temporary_directory save_function
                  load_function unique_id task_lock_params in
  let loader := make_model_target env file_path temporary_directory save_function'
                  load_function' unique_id task_lock_params' in
  let scratch := ModelTarget._temporary_directory dumper in
  let archive := _make_file_path file_path unique_id in
  let f := if truthy load_function' then load_function' else load_function in
  fs.exists_file scratch w = false →
  ¬ fs.below scratch archive →
  (∀ w0, save_function obj (ModelTarget._model_path dumper) w0
         = fs.write (ModelTarget._model_path dumper) payload w0) →
  lock_at_dump && skip_existing (ModelTarget._task_lock_params dumper)
    && fs.exists_file archive w = false →
  lock_skips_existing env
    && fs.exists_file (ModelTarget._load_function_path dumper) w = false →
  (∀ w1, files w1 !! ModelTarget._model_path loader = Some payload →
         call env f (ModelTarget._model_path loader) w1 = (w1, Py.Ok model)) →
  ModelTarget._temporary_directory loader = scratch
  ∧ ∃ w' w'',
      ModelTarget.dump env obj lock_at_dump task_params custom_labels required_task_outputs
        (dumper, w)
      = ((dumper, w'), Py.Ok tt)
      ∧ ModelTarget.exists_ env (loader, w') = ((loader, w'), Py.Ok true)
      ∧ ModelTarget.load env (loader, w')
        = ((ModelTarget.set_load_function loader f, w''), Py.Ok model)
      ∧ fs.isdir scratch w'' = false
      ∧ files w'' = files w'.
Proof.
  intros dumper loader scratch archive f Hfile Hout Hsave Hrun Hfresh Hcall.
  split; [done |].
  destruct (scratch_directory temporary_directory archive) as (_ & Hne & _).
  exact (model_dump_then_load env archive scratch load_function load_function'
           save_function save_function' (ModelTarget._task_lock_params dumper)
           (ModelTarget._task_lock_params loader) obj lock_at_dump task_params
           custom_labels required_task_outputs w payload model Hne Hfile Hout Hsave Hrun
           Hfresh Hcall).
Qed.

End ModelTargetFactory.

Section ModelTargetMoreExamples.

Import Examples.

Lemma archive_outside_scratch : ¬ fs.below "tmp/abc" "out/model.zip".
Proof. intros [n Hn]. vm_compute in Hn. discriminate Hn. Qed.

Lemma read_text_reads (p : string) (s : string) (w1 : World) :
  files w1 !! p = Some (Text s) →
  call env (VFunc "read_text") p w1 = (w1, Py.Ok (VStr s)).
Proof.
  intros H1. change (call env (VFunc "read_text") p w1) with (read_text p w1).
  unfold read_text, Py.bind, fs.read. by rewrite H1.
Qed.

(** A dump over a scratch directory with a file of an earlier run. *)
Lemma dump_stores_archive_only_witness :
  "tmp/abc" ≠ ""
  ∧ fs.exists_file "tmp/abc" stale_scratch = false
  ∧ ∃ w', ModelTarget.dump env (VStr "weights") true None None None
            (model_target, stale_scratch)
          = ((model_target, w'), Py.Ok tt)
          ∧ files w' !! "tmp/abc/stale.bin" = None.
Proof.
  split; [discriminate |]. split; [reflexivity |].
  destruct (dump_stores_archive_only env "out/model.zip" "tmp/abc" (VFunc "read_text")
              write_text lock (VStr "weights") true None None None stale_scratch
              (Text "weights"))
    as (w' & Hd & _ & _ & Hclean & _);
    [discriminate | reflexivity | exact archive_outside_scratch
    | intros w0; reflexivity | reflexivity |].
  exists w'. split; [exact Hd |]. apply Hclean.
  apply below_iff. exists "stale.bin". reflexivity.
Defined.

(** The model dumped with its reconstruction function, loaded through
    the target opened without one. *)
Lemma dump_load_model_witness :
  ∃ w' w'',
    ModelTarget.dump env (VStr "weights") true None None None (model_target, nowhere)
    = ((model_target, w'), Py.Ok tt)
    ∧ ModelTarget.load env (reader_target, w')
      = ((ModelTarget.set_load_function reader_target (VFunc "read_text"), w''),
         Py.Ok (VStr "weights")).
Proof.
  destruct (dump_load_model env "out/model.zip" "tmp/abc" (VFunc "read_text") VNone
              write_text write_text lock lock (VStr "weights") true None None None nowhere
              (Text "weights") (VStr "weights"))
    as (w' & w'' & Hd & _ & Hl & _);
    [discriminate | reflexivity | exact archive_outside_scratch
    | intros w0; reflexivity | reflexivity | reflexivity
    | intros w1 H1; exact (read_text_reads _ _ w1 H1) |].
  exists w', w''. split; [exact Hd | exact Hl].
Defined.

(** The model dumped and loaded through the target opened without
    reconstruction function. *)
Lemma load_function_not_callable_witness :
  truthy VNone = false
  ∧ ∃ w' w'',
      ModelTarget.dump env (VStr "weights") true None None None (reader_target, nowhere)
      = ((reader_target, w'), Py.Ok tt)
      ∧ ModelTarget.load env (reader_target, w')
        = ((ModelTarget.set_load_function reader_target VNone, w''),
           Py.Raise Py.TypeError)
      ∧ fs.isdir "tmp/abc" w'' = true.
Proof.
  split; [reflexivity |].
  destruct (load_function_not_callable env "out/model.zip" "tmp/abc" VNone VNone
              write_text write_text lock lock (VStr "weights") true None None None nowhere
              (Text "weights"))
    as (w' & w'' & Hd & Hl & Hdir & _);
    [discriminate | reflexivity | exact archive_outside_scratch
    | intros w0; reflexivity | reflexivity | reflexivity
    | intros qualname; discriminate | reflexivity |].
  exists w', w''. split; [exact Hd |]. split; [exact Hl | exact Hdir].
Defined.

Example factory_dumper_paths :
  ZipClient.file_path (ModelTarget._zip_client factory_dumper) = "out/model_42.zip"
  ∧ ModelTarget._temporary_directory factory_dumper = "tmp/ed8baae3ff31465ff618a5c39310e31b"
  ∧ lock_key (ModelTarget._task_lock_params factory_dumper) = ("out/model.zip", Some "42").
Proof. vm_compute. repeat split; reflexivity. Qed.

Lemma make_model_target_round_trip_witness :
  fs.exists_file (ModelTarget._temporary_directory factory_dumper) nowhere = false
  ∧ ∃ w' w'',
      ModelTarget.dump env (VStr "weights") true None None None (factory_dumper, nowhere)
      = ((factory_dumper, w'), Py.Ok tt)
      ∧ ModelTarget.load env (factory_loader, w')
        = ((ModelTarget.set_load_function factory_loader (VFunc "read_text"), w''),
           Py.Ok (VStr "weights")).
Proof.
  split; [reflexivity |].
  destruct (make_model_target_round_trip env "out/model.zip" "tmp" write_text write_text
              (VFunc "read_text") VNone (Some "42") None (Some lock)
              (VStr "weights") true None None None nowhere (Text "weights") (VStr "weights"))
    as (_ & w' & w'' & Hd & _ & Hl & _);
    [reflexivity
    | intros [n Hn]; vm_compute in Hn; discriminate Hn
    | intros w0; reflexivity | reflexivity | reflexivity
    | intros w1 H1; exact (read_text_reads _ _ w1 H1) |].
  exists w', w''. split; [exact Hd | exact Hl].
Defined.


End ModelTargetMoreExamples.
